(** * Upload and processing orchestration of the SDS data extractor front end

    A shallow embedding of the two stateful React components of the
    front end, [App] and [FileUpload] (both in [frontend/src/App.tsx]),
    together with the statements that the specification makes about them.

    - React state variables become record fields, a [setX] call becomes a
      record update, and an event handler becomes a function on the state
      of its component.
    - Calls that leave the component (the two callbacks received from [App]
      and [axios.post]) are returned by the handler as a list of effects, in
      program order.  The asynchronous [handleSubmit] is cut at its single
      [await] into the part that runs at the click and the part that runs
      once the request has settled.
    - The page level puts both components together: which [FileUpload]
      instance is mounted, and which requests are in flight. *)

From stdpp Require Import base strings list gmap numbers.
From Stdlib Require Import ZArith Lia QArith.Qcanon.
From Stdlib Require Import DecimalString.

#[local] Set Warnings "-register-all".
#[local] Open Scope Z_scope.

(** ** JavaScript values

    What [response.data], the result objects and the [error] state can hold
    at run time.  Objects are finite maps from property names to values. *)

Inductive jsval : Type :=
  | JUndefined
  | JNull
  | JBool (b : bool)
  | JNum (q : Qc)
  | JStr (s : string)
  | JArr (items : list jsval)
  | JObj (fields : gmap string jsval).

(** ToBoolean, as used by [!], [&&], [||] and [? :]. *)
Definition truthy (v : jsval) : bool :=
  match v with
  | JUndefined | JNull => false
  | JBool b => b
  | JNum q => negb (bool_decide (q = 0%Qc))
  | JStr s => negb (bool_decide (s = EmptyString))
  | JArr _ | JObj _ => true
  end.

(** [a || b] *)
Definition js_or (a b : jsval) : jsval := if truthy a then a else b.

(** The own property [k] of a value that is neither [null] nor [undefined].
    Only objects carry the property names the components read ([success],
    [message], [outputFile], [sessionId], [error]); on a string, a number, a
    boolean or an array these names read as [undefined]. *)
Definition own (v : jsval) (k : string) : jsval :=
  match v with
  | JObj fields => default JUndefined (fields !! k)
  | _ => JUndefined
  end.

(** [v.k]: [None] stands for the TypeError thrown on [null] and [undefined]. *)
Definition member (v : jsval) (k : string) : option jsval :=
  match v with
  | JUndefined | JNull => None
  | _ => Some (own v k)
  end.

(** [v?.k] *)
Definition opt_member (v : jsval) (k : string) : jsval :=
  match v with
  | JUndefined | JNull => JUndefined
  | _ => own v k
  end.

(** [Math.round (n / d)] for integers [n] and [d <> 0]: the quotient rounded
    to the nearest integer, ties towards plus infinity, that is
    [floor (n / d + 1 / 2)].  The byte counts of a progress event are integers
    far below [2 ^ 46], where the double-precision quotient rounds to the same
    integer as the exact one. *)
Definition js_round_div (n d : Z) : Z := (2 * n + d) / (2 * d).

(** [s.endsWith (search)], by the steps of the language definition: the
    [length search] characters of [s] that start at
    [length s - length search] are compared with [search]. *)
Definition endsWith (s search : string) : bool :=
  let len := String.length s in
  let searchLength := String.length search in
  if (len <? searchLength)%nat then false
  else String.eqb (String.substring (len - searchLength) searchLength s) search.

(** [l.filter ((x, i) => p x i)], the callback receiving each element with
    its index. *)
Fixpoint filter_from {A : Type} (p : A → Z → bool) (i : Z) (l : list A) : list A :=
  match l with
  | [] => []
  | x :: rest => if p x i then x :: filter_from p (i + 1) rest else filter_from p (i + 1) rest
  end.

Definition js_filter {A : Type} (p : A → Z → bool) (l : list A) : list A :=
  filter_from p 0 l.

(** ** Files and the state of [FileUpload] *)

(** A browser [File], as far as the component looks at it. *)
Record File : Type := {
  name : string;
  size : N;
  type : string
}.

(** A [FormData] body: the appended parts, in order. *)
Definition FormData : Type := list (string * File).

(** The progress event axios hands to [onUploadProgress]; [total] is
    optional. *)
Record AxiosProgressEvent : Type := {
  loaded : Z;
  total : option Z
}.

(** The four [useState] cells of [FileUpload]. *)
Record FileUploadState : Type := {
  pdfFiles : list File;
  excelFile : option File;
  uploadProgress : Z;
  error : jsval
}.

Definition initialFileUpload : FileUploadState :=
  {| pdfFiles := []; excelFile := None; uploadProgress := 0; error := JNull |}.

Definition setPdfFiles (update : list File → list File) (st : FileUploadState) : FileUploadState :=
  {| pdfFiles := update (pdfFiles st); excelFile := excelFile st;
     uploadProgress := uploadProgress st; error := error st |}.

Definition setExcelFile (file : option File) (st : FileUploadState) : FileUploadState :=
  {| pdfFiles := pdfFiles st; excelFile := file;
     uploadProgress := uploadProgress st; error := error st |}.

Definition setUploadProgress (percent : Z) (st : FileUploadState) : FileUploadState :=
  {| pdfFiles := pdfFiles st; excelFile := excelFile st;
     uploadProgress := percent; error := error st |}.

Definition setError (e : jsval) (st : FileUploadState) : FileUploadState :=
  {| pdfFiles := pdfFiles st; excelFile := excelFile st;
     uploadProgress := uploadProgress st; error := e |}.

(** ** The handlers of the file selection *)

Definition onDropPdf (acceptedFiles : list File) (st : FileUploadState) : FileUploadState :=
  let validFiles := filter (λ file, type file = "application/pdf") acceptedFiles in
  if (0 <? length validFiles)%nat
  then setError JNull (setPdfFiles (λ prev, prev ++ validFiles) st)
  else setError (JStr "Please upload valid PDF files") st.

Definition onDropExcel (acceptedFiles : list File) (st : FileUploadState) : FileUploadState :=
  match acceptedFiles !! 0%nat with
  | Some file =>
      if endsWith (name file) ".xlsx"
      then setError JNull (setExcelFile (Some file) st)
      else setError (JStr "Please upload a valid Excel file (.xlsx)") st
  | None => setError (JStr "Please upload a valid Excel file (.xlsx)") st
  end.

Definition removePdfFile (index : Z) (st : FileUploadState) : FileUploadState :=
  setPdfFiles (λ prev, js_filter (λ _ i, negb (i =? index)) prev) st.

(** ** Upload progress *)

(** The argument of [setUploadProgress] in [onUploadProgress]:
    [Math.round ((loaded ? loaded * 100 : 0) / (total || 100))]. *)
Definition percentCompleted (progressEvent : AxiosProgressEvent) : Z :=
  let numerator :=
    if loaded progressEvent =? 0 then 0 else loaded progressEvent * 100 in
  let denominator :=
    match total progressEvent with
    | Some t => if t =? 0 then 100 else t
    | None => 100
    end in
  js_round_div numerator denominator.

Definition onUploadProgress (progressEvent : AxiosProgressEvent) (st : FileUploadState)
  : FileUploadState :=
  setUploadProgress (percentCompleted progressEvent) st.

(** ** The request and its outcome *)

(** An axios response, as far as the component looks at it: the HTTP status
    and the parsed body [data]. *)
Record Response : Type := {
  status : Z;
  data : jsval
}.

(** What a [catch] clause can receive: an [AxiosError], which carries the
    response when the server sent one, or any other thrown value. *)
Inductive thrown : Type :=
  | AxiosError (response : option Response)
  | OtherError.

(** The two ways the promise of [axios.post] settles. *)
Inductive settled : Type :=
  | Fulfilled (response : Response)
  | Rejected (err : thrown).

(** What the network did with the request. *)
Inductive server_reply : Type :=
  | NoResponse
  | HttpReply (response : Response).

(** [axios.post] under the configuration the component passes, which leaves
    [validateStatus] at the default of the library: the promise is fulfilled
    for a status from 200 to 299 and rejected with an [AxiosError] otherwise;
    a request that got no response is rejected with an [AxiosError] that has
    no [response].  A body that is not JSON reaches [data] as the raw string. *)
Definition axios_post (reply : server_reply) : settled :=
  match reply with
  | NoResponse => Rejected (AxiosError None)
  | HttpReply response =>
      if (200 <=? status response) && (status response <? 300)
      then Fulfilled response
      else Rejected (AxiosError (Some response))
  end.

(** What a handler of [FileUpload] does outside its own state. *)
Inductive effect : Type :=
  | OnProcessingStart
  | AxiosPost (formData : FormData)
  | OnProcessingComplete (results : jsval).

(** ** [handleSubmit] *)

(** [pdfFiles.length === 0 || !excelFile], the guard of [handleSubmit] and
    the [disabled] attribute of the submit button. *)
Definition submitDisabled (st : FileUploadState) : bool :=
  (length (pdfFiles st) =? 0)%nat || negb (bool_decide (is_Some (excelFile st))).

Definition canSubmit (st : FileUploadState) : bool := negb (submitDisabled st).

(** The body built by the [forEach] and the final [append]. *)
Definition buildFormData (st : FileUploadState) : FormData :=
  ((λ file, ("pdfFiles", file)) <$> pdfFiles st)
  ++ from_option (λ file, [("excelFile", file)]) [] (excelFile st).

(** [handleSubmit] up to its [await]. *)
Definition handleSubmit (st : FileUploadState) : FileUploadState * list effect :=
  if submitDisabled st
  then (setError (JStr "Please upload both PDF files and an Excel file") st, [])
  else (setError JNull st, [OnProcessingStart; AxiosPost (buildFormData st)]).

(** The object literal of the [try] block.  Reading [data.message] throws
    when [data] is [null] or [undefined]. *)
Definition successResults (response : Response) : option jsval :=
  message ← member (data response) "message";
  outputFile ← member (data response) "outputFile";
  sessionId ← member (data response) "sessionId";
  Some (JObj {[ "success" := JBool true;
                "message" := message;
                "outputFile" := outputFile;
                "sessionId" := sessionId ]}).

(** [errorMessage] of the [catch] block:
    [err.response?.data?.error || errorMessage] for an axios error. *)
Definition catchErrorMessage (err : thrown) : jsval :=
  let errorMessage := JStr "An error occurred during processing" in
  match err with
  | AxiosError response =>
      js_or (opt_member (from_option data JUndefined response) "error") errorMessage
  | OtherError => errorMessage
  end.

(** The object literal of the [catch] block. *)
Definition failureResults (errorMessage : jsval) : jsval :=
  JObj {[ "success" := JBool false;
          "message" := JStr "Processing failed";
          "error" := errorMessage ]}.

Definition handleSubmit_catch (err : thrown) (st : FileUploadState)
  : FileUploadState * list effect :=
  let errorMessage := catchErrorMessage err in
  (setError errorMessage st, [OnProcessingComplete (failureResults errorMessage)]).

(** [handleSubmit] from its [await] on. *)
Definition handleSubmit_settled (outcome : settled) (st : FileUploadState)
  : FileUploadState * list effect :=
  match outcome with
  | Fulfilled response =>
      match successResults response with
      | Some results => (st, [OnProcessingComplete results])
      | None => handleSubmit_catch OtherError st
      end
  | Rejected err => handleSubmit_catch err st
  end.

(** The result objects handed to [onProcessingComplete]. *)
Definition delivered (effects : list effect) : list jsval :=
  omap (λ e, match e with OnProcessingComplete results => Some results | _ => None end) effects.

(** The bodies posted. *)
Definition posted (effects : list effect) : list FormData :=
  omap (λ e, match e with AxiosPost formData => Some formData | _ => None end) effects.

(** ** [App] *)

Record AppState : Type := {
  isProcessing : bool;
  processingResults : jsval
}.

Definition initialApp : AppState :=
  {| isProcessing := false; processingResults := JNull |}.

(** [() => setIsProcessing (true)] *)
Definition onProcessingStart (app : AppState) : AppState :=
  {| isProcessing := true; processingResults := processingResults app |}.

Definition handleProcessingComplete (results : jsval) (app : AppState) : AppState :=
  {| isProcessing := false; processingResults := results |}.

(** [!processingResults?.success], the condition under which [App] renders
    [FileUpload]. *)
Definition rendersFileUpload (app : AppState) : bool :=
  negb (truthy (opt_member (processingResults app) "success")).

(** [processingResults?.success && processingResults.outputFile], the
    condition under which [App] renders [DownloadSection]. *)
Definition rendersDownloadSection (app : AppState) : bool :=
  truthy (opt_member (processingResults app) "success")
  && truthy (own (processingResults app) "outputFile").

(** The session states of the specification, read off the two state cells of
    [App]: a submission is under way while [isProcessing] holds, and once a
    result is stored its [success] field tells the two final states apart. *)
Inductive SessionState : Type := Idle | Submitting | Succeeded | Failed.

Definition sessionState (app : AppState) : SessionState :=
  if isProcessing app then Submitting
  else match processingResults app with
       | JNull => Idle
       | results => if truthy (own results "success") then Succeeded else Failed
       end.

(** ** The page: [App], the mounted [FileUpload] and the requests in flight *)

(** A request that has been posted and has not settled yet.  Its callbacks
    belong to the [FileUpload] instance that posted it. *)
Record Transfer : Type := {
  owner : nat;
  body : FormData
}.

(** [upload] is the state of the [FileUpload] instance on screen, if [App]
    renders one; instances are numbered in the order they are mounted, and
    [mounted] is the number of the latest. *)
Record Page : Type := {
  app : AppState;
  mounted : nat;
  upload : option FileUploadState;
  inflight : list Transfer
}.

Definition initialPage : Page :=
  {| app := initialApp; mounted := 1; upload := Some initialFileUpload; inflight := [] |}.

Definition setApp (a : AppState) (pg : Page) : Page :=
  {| app := a; mounted := mounted pg; upload := upload pg; inflight := inflight pg |}.

Definition setUpload (u : option FileUploadState) (pg : Page) : Page :=
  {| app := app pg; mounted := mounted pg; upload := u; inflight := inflight pg |}.

Definition setInflight (ts : list Transfer) (pg : Page) : Page :=
  {| app := app pg; mounted := mounted pg; upload := upload pg; inflight := ts |}.

(** [App] renders again after a change of its state: a [FileUpload] that
    stays on screen keeps its state, one that leaves the screen loses it, and
    one that comes back starts from its initial state as a new instance. *)
Definition render (pg : Page) : Page :=
  if rendersFileUpload (app pg)
  then match upload pg with
       | Some _ => pg
       | None =>
           {| app := app pg; mounted := S (mounted pg);
              upload := Some initialFileUpload; inflight := inflight pg |}
       end
  else setUpload None pg.

(** A state update by a callback of instance [i]; it is lost when that
    instance is no longer on screen. *)
Definition onInstance (i : nat) (f : FileUploadState → FileUploadState) (pg : Page) : Page :=
  if bool_decide (i = mounted pg) then setUpload (f <$> upload pg) pg else pg.

(** The state a callback of instance [i] would update. *)
Definition instanceState (i : nat) (pg : Page) : option FileUploadState :=
  if bool_decide (i = mounted pg) then upload pg else None.

Definition perform (i : nat) (pg : Page) (e : effect) : Page :=
  match e with
  | OnProcessingStart => render (setApp (onProcessingStart (app pg)) pg)
  | OnProcessingComplete results =>
      render (setApp (handleProcessingComplete results (app pg)) pg)
  | AxiosPost formData =>
      setInflight (inflight pg ++ [{| owner := i; body := formData |}]) pg
  end.

Inductive event : Type :=
  | DropPdf (acceptedFiles : list File)
  | DropExcel (acceptedFiles : list File)
  | RemovePdf (index : Z)
  | Submit
  | UploadProgress (k : nat) (progressEvent : AxiosProgressEvent)
  | Settle (k : nat) (reply : server_reply).

(** One event on the page.  The user events act on the [FileUpload] on
    screen; [UploadProgress k] and [Settle k] concern the [k]-th request in
    flight.  The page follows the state of the components; whether rendering
    a stored value throws is told by [errorBanner] and [downloadSectionView]
    further down. *)
Definition step (pg : Page) (ev : event) : Page :=
  match ev with
  | DropPdf acceptedFiles => setUpload (onDropPdf acceptedFiles <$> upload pg) pg
  | DropExcel acceptedFiles => setUpload (onDropExcel acceptedFiles <$> upload pg) pg
  | RemovePdf index => setUpload (removePdfFile index <$> upload pg) pg
  | Submit =>
      match upload pg with
      | Some st =>
          let '(st', effects) := handleSubmit st in
          foldl (perform (mounted pg)) (setUpload (Some st') pg) effects
      | None => pg
      end
  | UploadProgress k progressEvent =>
      match inflight pg !! k with
      | Some t => onInstance (owner t) (onUploadProgress progressEvent) pg
      | None => pg
      end
  | Settle k reply =>
      match inflight pg !! k with
      | Some t =>
          let outcome := axios_post reply in
          let st := default initialFileUpload (instanceState (owner t) pg) in
          let effects := (handleSubmit_settled outcome st).2 in
          foldl (perform (owner t))
            (onInstance (owner t) (λ st, (handleSubmit_settled outcome st).1)
               (setInflight (delete k (inflight pg)) pg))
            effects
      | None => pg
      end
  end.

Definition run (pg : Page) (evs : list event) : Page := foldl step pg evs.

Definition reachable (pg : Page) : Prop := ∃ evs, pg = run initialPage evs.

(** [FileUpload] is on screen exactly when [App] renders it. *)
Definition consistent (pg : Page) : Prop :=
  is_Some (upload pg) ↔ rendersFileUpload (app pg) = true.

(** The whole of [handleSubmit] for a request that settles with [reply] and
    a selection that is left alone in between: the effects of both parts, in
    order. *)
Definition submit (st : FileUploadState) (reply : server_reply)
  : FileUploadState * list effect :=
  let '(st1, effects1) := handleSubmit st in
  match posted effects1 with
  | [] => (st1, effects1)
  | _ :: _ =>
      let '(st2, effects2) := handleSubmit_settled (axios_post reply) st1 in
      (st2, effects1 ++ effects2)
  end.

(** ** The progress value in the words of the specification

    [round (bytesSent * 100 / bytesTotal)] clamped to the interval from 0 to
    100, and 0 when [bytesTotal] is unknown or zero.  It is compared with
    [percentCompleted] below. *)
Definition spec_percentComplete (progressEvent : AxiosProgressEvent) : Z :=
  match total progressEvent with
  | None => 0
  | Some bytesTotal =>
      if bytesTotal =? 0 then 0
      else Z.max 0 (Z.min 100 (js_round_div (loaded progressEvent * 100) bytesTotal))
  end.

(** ** Sample data *)

Definition sheetPdf : File :=
  {| name := "acetone.pdf"; size := 48213; type := "application/pdf" |}.

Definition notesTxt : File :=
  {| name := "notes.txt"; size := 112; type := "text/plain" |}.

Definition secondPdf : File :=
  {| name := "ethanol.pdf"; size := 51020; type := "application/pdf" |}.

Definition inventoryXlsx : File :=
  {| name := "inventory.xlsx"; size := 9120;
     type := "application/vnd.openxmlformats-officedocument.spreadsheetml.sheet" |}.

Definition stockXlsx : File :=
  {| name := "stock.xlsx"; size := 7001;
     type := "application/vnd.openxmlformats-officedocument.spreadsheetml.sheet" |}.

Definition legacyXls : File :=
  {| name := "inventory.xls"; size := 20480; type := "application/vnd.ms-excel" |}.

(** A selection that passes the guard of [handleSubmit]. *)
Definition readySelection : FileUploadState :=
  onDropExcel [inventoryXlsx] (onDropPdf [sheetPdf; notesTxt; secondPdf] initialFileUpload).

Definition readyPage : Page :=
  run initialPage [DropPdf [sheetPdf; notesTxt; secondPdf]; DropExcel [inventoryXlsx]].

(** The page after one click on the submit button. *)
Definition busyPage : Page := step readyPage Submit.

(** ** What [FileUpload] renders *)


(** [(pdfFiles.length > 0 || excelFile) && uploadProgress > 0 &&
    uploadProgress < 100], the condition of the progress bar. *)
Definition rendersProgressBar (st : FileUploadState) : bool :=
  ((0 <? length (pdfFiles st))%nat || bool_decide (is_Some (excelFile st)))
  && (0 <? uploadProgress st) && (uploadProgress st <? 100).

(** The decimal digits of a natural number. *)
Definition decimal (n : N) : string := NilEmpty.string_of_uint (N.to_uint n).

Fixpoint zeros (k : nat) : string :=
  match k with
  | O => EmptyString
  | S k' => "0" +:+ zeros k'
  end.

(** The text [x.toFixed (2)] builds from the integer [n] it has chosen as
    the nearest to [x * 100]: the digits of [n], padded with zeros on the left
    to three digits at least, with a point before the last two. *)
Definition toFixed2 (n : N) : string :=
  let m := decimal n in
  let m := if (String.length m <=? 2)%nat then zeros (3 - String.length m) +:+ m else m in
  let k := String.length m in
  String.substring 0 (k - 2) m +:+ "." +:+ String.substring (k - 2) 2 m.

(** The integer [toFixed (2)] chooses for [size / 1024 / 1024]: the nearest
    to [size * 100 / 1048576], the larger one at a tie.  Both divisions by
    1024 are exact on a byte count, so the choice is made on the exact
    quotient. *)
Definition sizeHundredths (bytes : N) : N :=
  Z.to_N (js_round_div (Z.of_N bytes * 100) (1024 * 1024)).

(** [{(excelFile.size / 1024 / 1024).toFixed(2)} MB], the size shown under
    the name of the selected spreadsheet. *)
Definition excelSizeLabel (file : File) : string :=
  toFixed2 (sizeHundredths (size file)) +:+ " MB".

(** ** Reading a [FormData] body *)

(** [formData.getAll (field)] and [formData.get (field)] of the DOM: the
    values appended under a field name, in order, and the first of them. *)
Definition getAll (field : string) (formData : list (string * File)) : list File :=
  (filter (λ part, part.1 = field) formData).*2.

Definition get (field : string) (formData : list (string * File)) : option File :=
  head (getAll field formData).

(** ** [DownloadSection] *)

Module DownloadSection.

(** The props [App] passes, as the values they are at run time. *)
Record Props : Type := {
  filename : jsval;
  sessionId : jsval;
  message : jsval
}.

(** [`/api/download/${sessionId}/${filename}`] for props that are strings,
    as the component declares them. *)
Definition downloadUrl (sessionId filename : string) : string :=
  "/api/download/" +:+ sessionId +:+ "/" +:+ filename.

End DownloadSection.

(** The [DownloadSection] element of [App], when it creates one, with the
    props it passes: [filename] is the [outputFile] of the stored result,
    [sessionId] is [processingResults.sessionId || ''], and [message] its
    [message].  What the component makes of these props is
    [downloadSectionView] below. *)
Definition downloadSection (app : AppState) : option DownloadSection.Props :=
  if rendersDownloadSection app
  then Some {| DownloadSection.filename := own (processingResults app) "outputFile";
               DownloadSection.sessionId :=
                 js_or (own (processingResults app) "sessionId") (JStr EmptyString);
               DownloadSection.message := own (processingResults app) "message" |}
  else None.

(** ** Invariants of the page *)

(** Every selected document has the PDF media type and the name of the
    selected spreadsheet ends in [.xlsx]. *)
Definition validSelection (st : FileUploadState) : Prop :=
  Forall (λ file, type file = "application/pdf") (pdfFiles st)
  ∧ ∀ file, excelFile st = Some file → endsWith (name file) ".xlsx" = true.

(** A body made of one part or more under [pdfFiles], each a PDF by media
    type, followed by one part under [excelFile] whose name ends in
    [.xlsx]. *)
Definition validBody (formData : FormData) : Prop :=
  ∃ documents spreadsheet,
    formData = ((λ file, ("pdfFiles", file)) <$> documents) ++ [("excelFile", spreadsheet)]
    ∧ documents ≠ []
    ∧ Forall (λ file, type file = "application/pdf") documents
    ∧ endsWith (name spreadsheet) ".xlsx" = true.

Definition validPage (pg : Page) : Prop :=
  (∀ st, upload pg = Some st → validSelection st)
  ∧ Forall (λ t, validBody (body t)) (inflight pg).

(** The page with a success on screen and a second request still in
    flight. *)
Definition successWithPending : Page :=
  run readyPage
    [Submit; Submit;
     Settle 0 (HttpReply {| status := 200;
                            data := JObj {[ "message" := JStr "Updated 3 rows";
                                            "outputFile" := JStr "out.xlsx";
                                            "sessionId" := JStr "abc123" ]} |})].

(** ** Values as React children

    What React makes of a value placed as a child, as in [{error}] and
    [{message}]: a string or a number is shown as text, a boolean, [null] and
    [undefined] show nothing, an array shows its elements, and a plain object
    makes the render throw.  No component here catches that, so the whole
    page goes blank. *)
Fixpoint validChild (v : jsval) : bool :=
  match v with
  | JObj _ => false
  | JArr items => forallb validChild items
  | _ => true
  end.

(** The outcome of rendering: it throws, or it puts something on screen. *)
Inductive rendering (A : Type) : Type :=
  | Crash
  | Rendered (shown : A).

Arguments Crash {A}.
Arguments Rendered {A} shown.

(** [{error && (<div ...>{error}</div>)}]: no banner for a falsy [error],
    a banner with [error] as its child otherwise, which throws when [error] is
    no valid child. *)
Definition errorBanner (st : FileUploadState) : rendering (option jsval) :=
  if truthy (error st)
  then if validChild (error st) then Rendered (Some (error st)) else Crash
  else Rendered None.

(** What [App] and [DownloadSection] together make of the stored result:
    nothing when [App] renders no download section, the section with its
    props when [{message}] is a valid child, and a throw otherwise. *)
Definition downloadSectionView (app : AppState)
  : rendering (option DownloadSection.Props) :=
  match downloadSection app with
  | None => Rendered None
  | Some props =>
      if validChild (DownloadSection.message props) then Rendered (Some props) else Crash
  end.

(** The [errorMessage] of the [catch] block when the request that settles
    with [reply] ends there, and [None] when the [try] block completes. *)
Definition failureOf (reply : server_reply) : option jsval :=
  match axios_post reply with
  | Fulfilled response =>
      match successResults response with
      | Some _ => None
      | None => Some (catchErrorMessage OtherError)
      end
  | Rejected err => Some (catchErrorMessage err)
  end.

(** The events that neither edit the selection nor take the form off the
    screen: a click on submit, a progress event, and the failure of a request
    whose error message can be rendered. *)
Definition keepsForm (ev : event) : bool :=
  match ev with
  | Submit => true
  | UploadProgress _ _ => true
  | Settle _ reply =>
      match failureOf reply with
      | Some errorMessage => validChild errorMessage
      | None => false
      end
  | DropPdf _ | DropExcel _ | RemovePdf _ => false
  end.

(* ================================================================= *)
(** * Properties *)

(** ** Strings and lists *)

Lemma substring_all (s : string) : String.substring 0 (String.length s) s = s.
Proof. induction s as [|c s IH]; simpl; [reflexivity | now rewrite IH]. Qed.

Lemma substring_after (stem s : string) :
  String.substring (String.length stem) (String.length s) (stem +:+ s) = s.
Proof. induction stem as [|c stem IH]; simpl; [apply substring_all | exact IH]. Qed.

Lemma substring_split (s : string) :
  ∀ n m : nat, (n + m)%nat = String.length s →
    String.substring 0 n s +:+ String.substring n m s = s.
Proof.
  induction s as [|c s IH]; intros n m Hlen; simpl in Hlen.
  - destruct n, m; simpl in *; try lia; reflexivity.
  - destruct n as [|n]; simpl.
    + destruct m as [|m]; simpl in *; [lia|].
      replace m with (String.length s) by lia.
      rewrite substring_all. reflexivity.
    + transitivity (String c (String.substring 0 n s +:+ String.substring n m s));
        [reflexivity | f_equal; apply IH; lia].
Qed.

Lemma string_length_app (s t : string) :
  String.length (s +:+ t) = (String.length s + String.length t)%nat.
Proof. induction s as [|c s IH]; simpl; [reflexivity | now rewrite IH]. Qed.

(** [endsWith] holds exactly of the strings that have [search] at their end. *)
Lemma endsWith_spec (s search : string) :
  endsWith s search = true ↔ ∃ stem, s = stem +:+ search.
Proof.
  unfold endsWith. split.
  - destruct (String.length s <? String.length search)%nat eqn:Hlt; [discriminate|].
    apply Nat.ltb_ge in Hlt. intros Heq%String.eqb_eq.
    exists (String.substring 0 (String.length s - String.length search) s).
    pose proof (substring_split s (String.length s - String.length search)
                  (String.length search)) as Hsplit.
    rewrite Heq in Hsplit. symmetry. apply Hsplit. lia.
  - intros [stem ->]. rewrite string_length_app.
    replace (_ <? _)%nat with false by (symmetry; apply Nat.ltb_ge; lia).
    replace (String.length stem + String.length search - String.length search)%nat
      with (String.length stem) by lia.
    rewrite substring_after. apply String.eqb_refl.
Qed.

(** Filtering out one index leaves the list alone when the index is not one
    of its positions, and deletes that position otherwise. *)
Lemma filter_from_other_index {A : Type} (index : Z) (l : list A) :
  ∀ i : Z,
    filter_from (λ _ j, negb (j =? index)) i l =
    if bool_decide (i ≤ index < i + Z.of_nat (length l))
    then take (Z.to_nat (index - i)) l ++ drop (S (Z.to_nat (index - i))) l
    else l.
Proof.
  induction l as [|x l IH]; intros i; simpl filter_from.
  - case_bool_decide; [simpl in *; lia | reflexivity].
  - rewrite IH. destruct (i =? index) eqn:Hi; simpl negb; cbv iota.
    + apply Z.eqb_eq in Hi. subst index.
      rewrite bool_decide_eq_false_2 by lia.
      rewrite bool_decide_eq_true_2 by (simpl length; lia).
      replace (i - i) with 0 by lia. reflexivity.
    + apply Z.eqb_neq in Hi.
      case_bool_decide as H1; case_bool_decide as H2;
        simpl length in *; try lia; [|reflexivity].
      replace (Z.to_nat (index - i)) with (S (Z.to_nat (index - (i + 1)))) by lia.
      reflexivity.
Qed.

(** ** The file selection *)

Example onDropPdf_sample :
  pdfFiles (onDropPdf [notesTxt; secondPdf] (onDropPdf [sheetPdf] initialFileUpload))
  = [sheetPdf; secondPdf].
Proof. reflexivity. Qed.

Example onDropPdf_rejects_sample :
  onDropPdf [notesTxt; legacyXls] readySelection
  = setError (JStr "Please upload valid PDF files") readySelection.
Proof. reflexivity. Qed.

(** C6. [onDropPdf] appends to the documents already selected exactly the
    candidates whose media type is [application/pdf], in the order in which
    they were offered, and touches nothing else of the selection; when no
    candidate passes, the selection is unchanged and the rejection message is
    reported. *)
Theorem onDropPdf_appends_accepted (candidates : list File) (st : FileUploadState) :
  let accepted := filter (λ file, type file = "application/pdf") candidates in
  pdfFiles (onDropPdf candidates st) = pdfFiles st ++ accepted
  ∧ excelFile (onDropPdf candidates st) = excelFile st
  ∧ (∀ file, file ∈ accepted ↔ file ∈ candidates ∧ type file = "application/pdf")
  ∧ accepted `sublist_of` candidates
  ∧ (accepted = [] →
       pdfFiles (onDropPdf candidates st) = pdfFiles st
       ∧ error (onDropPdf candidates st) = JStr "Please upload valid PDF files")
  ∧ (accepted ≠ [] → error (onDropPdf candidates st) = JNull).
Proof.
  intros accepted. unfold onDropPdf. fold accepted.
  split_and!.
  - destruct accepted; simpl; [by rewrite app_nil_r | done].
  - by destruct accepted.
  - intros file. unfold accepted. rewrite list_elem_of_filter. tauto.
  - apply sublist_filter.
  - intros ->. done.
  - intros Hne. destruct accepted; [done | reflexivity].
Qed.

Lemma onDropPdf_appends_accepted_witness :
  pdfFiles (onDropPdf [notesTxt; legacyXls] readySelection) = pdfFiles readySelection
  ∧ error (onDropPdf [notesTxt; legacyXls] readySelection) = JStr "Please upload valid PDF files"
  ∧ error (onDropPdf [notesTxt; secondPdf] readySelection) = JNull.
Proof.
  destruct (onDropPdf_appends_accepted [notesTxt; legacyXls] readySelection)
    as (_ & _ & _ & _ & Hnone & _).
  destruct (onDropPdf_appends_accepted [notesTxt; secondPdf] readySelection)
    as (_ & _ & _ & _ & _ & Hsome).
  split_and!.
  - apply Hnone. reflexivity.
  - apply Hnone. reflexivity.
  - apply Hsome. discriminate.
Defined.

Example onDropExcel_sample :
  excelFile (onDropExcel [stockXlsx] (onDropExcel [inventoryXlsx] initialFileUpload))
  = Some stockXlsx.
Proof. reflexivity. Qed.

Example onDropExcel_rejects_sample :
  onDropExcel [legacyXls] readySelection
  = setError (JStr "Please upload a valid Excel file (.xlsx)") readySelection.
Proof. reflexivity. Qed.

(** C7. [onDropExcel] accepts its candidate, the first file offered, exactly
    when the name of the candidate ends in [.xlsx].  An accepted candidate
    takes the place of whatever spreadsheet was selected, so of two accepted
    candidates only the second remains; a rejected one, like an empty offer,
    leaves the selected spreadsheet and the documents as they were and
    reports the rejection message. *)
Theorem onDropExcel_last_write_wins (candidate : File) (others : list File)
    (st : FileUploadState) :
  (endsWith (name candidate) ".xlsx" = true ↔ ∃ stem, name candidate = stem +:+ ".xlsx")
  ∧ (endsWith (name candidate) ".xlsx" = true →
       onDropExcel (candidate :: others) st = setError JNull (setExcelFile (Some candidate) st))
  ∧ (endsWith (name candidate) ".xlsx" = false →
       onDropExcel (candidate :: others) st
       = setError (JStr "Please upload a valid Excel file (.xlsx)") st)
  ∧ onDropExcel [] st = setError (JStr "Please upload a valid Excel file (.xlsx)") st
  ∧ (∀ later others',
       endsWith (name candidate) ".xlsx" = true →
       endsWith (name later) ".xlsx" = true →
       excelFile (onDropExcel (later :: others') (onDropExcel (candidate :: others) st))
       = Some later).
Proof.
  split_and!.
  - apply endsWith_spec.
  - intros H. unfold onDropExcel. simpl. by rewrite H.
  - intros H. unfold onDropExcel. simpl. by rewrite H.
  - reflexivity.
  - intros later others' _ H. unfold onDropExcel at 1. simpl. by rewrite H.
Qed.

Lemma onDropExcel_last_write_wins_witness :
  (∃ stem, name inventoryXlsx = stem +:+ ".xlsx")
  ∧ excelFile (onDropExcel [stockXlsx] (onDropExcel [inventoryXlsx; legacyXls] readySelection))
    = Some stockXlsx
  ∧ excelFile (onDropExcel [legacyXls] readySelection) = excelFile readySelection.
Proof.
  destruct (onDropExcel_last_write_wins inventoryXlsx [legacyXls] readySelection)
    as (Hends & _ & _ & _ & Htwice).
  destruct (onDropExcel_last_write_wins legacyXls [] readySelection)
    as (_ & _ & Hreject & _).
  split_and!.
  - apply Hends. reflexivity.
  - apply Htwice; reflexivity.
  - rewrite Hreject; reflexivity.
Defined.

Example removePdfFile_sample :
  pdfFiles (removePdfFile 1 (onDropPdf [sheetPdf; secondPdf; sheetPdf] initialFileUpload))
  = [sheetPdf; sheetPdf].
Proof. reflexivity. Qed.

(** C9. [removePdfFile] changes nothing when the index is not a position of
    the document sequence, and otherwise deletes the document at that position
    and keeps the others in their order; the spreadsheet is not touched. *)
Theorem removePdfFile_spec (index : Z) (st : FileUploadState) :
  (index < 0 ∨ Z.of_nat (length (pdfFiles st)) ≤ index → removePdfFile index st = st)
  ∧ (0 ≤ index < Z.of_nat (length (pdfFiles st)) →
       pdfFiles (removePdfFile index st)
       = take (Z.to_nat index) (pdfFiles st) ++ drop (S (Z.to_nat index)) (pdfFiles st)
       ∧ length (pdfFiles (removePdfFile index st)) = (length (pdfFiles st) - 1)%nat)
  ∧ excelFile (removePdfFile index st) = excelFile st.
Proof.
  unfold removePdfFile, js_filter, setPdfFiles. simpl.
  rewrite filter_from_other_index. replace (index - 0) with index by lia.
  split_and!.
  - intros Hout. rewrite bool_decide_eq_false_2 by lia. by destruct st.
  - intros Hin. rewrite bool_decide_eq_true_2 by lia. split; [reflexivity|].
    rewrite length_app, length_take, length_drop. lia.
  - reflexivity.
Qed.

Lemma removePdfFile_spec_witness :
  removePdfFile 2 readySelection = readySelection
  ∧ removePdfFile (-1) readySelection = readySelection
  ∧ pdfFiles (removePdfFile 0 readySelection) = [secondPdf].
Proof.
  destruct (removePdfFile_spec 2 readySelection) as (Hhigh & _ & _).
  destruct (removePdfFile_spec (-1) readySelection) as (Hlow & _ & _).
  destruct (removePdfFile_spec 0 readySelection) as (_ & Hin & _).
  split_and!.
  - apply Hhigh. right. simpl. lia.
  - apply Hlow. left. lia.
  - apply Hin. simpl. lia.
Defined.

(** ** The second part of [handleSubmit] *)

(** The second part of [handleSubmit] hands exactly one result to
    [onProcessingComplete]: that of the [try] block, with the state of the
    form untouched, or that of the [catch] block, with its error shown. *)
Lemma handleSubmit_settled_cases (outcome : settled) (st : FileUploadState) :
  (∃ results,
     handleSubmit_settled outcome st = (st, [OnProcessingComplete results])
     ∧ own results "success" = JBool true)
  ∨ (∃ detail,
       handleSubmit_settled outcome st
       = (setError detail st, [OnProcessingComplete (failureResults detail)])).
Proof.
  destruct outcome as [response | err]; simpl; [|right; by eexists].
  destruct (successResults response) as [r|] eqn:Hr; [left | right; by eexists].
  exists r. split; [reflexivity|].
  unfold successResults in Hr.
  destruct (member (data response) "message") as [m|]; [|done].
  destruct (member (data response) "outputFile") as [o|]; [|done].
  destruct (member (data response) "sessionId") as [s|]; [|done].
  simpl in Hr. by injection Hr as <-.
Qed.

(** ** Upload progress *)

Example percentCompleted_half :
  percentCompleted {| loaded := 1; total := Some 8 |} = 13.
Proof. reflexivity. Qed.

Example percentCompleted_done :
  percentCompleted {| loaded := 57333; total := Some 57333 |} = 100.
Proof. reflexivity. Qed.

(** [js_round_div n d] is the integer within one half of [n / d], the upper
    one at a tie. *)
Lemma js_round_div_nearest (n d : Z) :
  0 < d →
  2 * d * js_round_div n d - d ≤ 2 * n < 2 * d * js_round_div n d + d.
Proof.
  intros Hd. unfold js_round_div.
  pose proof (Z.div_mod (2 * n + d) (2 * d) ltac:(lia)) as Hdiv.
  pose proof (Z.mod_pos_bound (2 * n + d) (2 * d) ltac:(lia)) as Hmod.
  lia.
Qed.

(** C1, against the claim.  While the request of [busyPage] is in flight, a
    progress event without [total] makes the handler store the number of bytes
    sent, here 2048: neither the 0 that the specification asks for when the
    total is unknown, nor a value in the interval from 0 to 100. *)
Lemma percentCompleted_unknown_total_counterexample :
  let progressEvent := {| loaded := 2048; total := None |} in
  uploadProgress <$> upload (step busyPage (UploadProgress 0 progressEvent)) = Some 2048
  ∧ uploadProgress (onUploadProgress progressEvent readySelection) = 2048
  ∧ spec_percentComplete progressEvent = 0
  ∧ ¬ (0 ≤ uploadProgress (onUploadProgress progressEvent readySelection) ≤ 100).
Proof.
  simpl. split_and!;
    [reflexivity | reflexivity | reflexivity
    | vm_compute; intros [_ H]; apply H; reflexivity].
Qed.

(** C1, amended.  In every state of the form and for every progress event,
    the handler stores [round (loaded * 100 / divisor)], where the divisor is
    [total] when that is known and not zero and 100 otherwise, and changes
    nothing else of the form; it does not clamp.  For a known total that is
    not zero the stored value is the integer nearest to [loaded * 100 / total],
    the upper one at a tie, whatever [loaded] is: above 100 as soon as
    [loaded] exceeds the total by half a percent.  Where [0 <= loaded <= total]
    with a positive total, it lies between 0 and 100 and is the value the
    specification describes.  For an unknown or zero total the stored value is
    [loaded] itself.  The end of the request does not touch the stored
    value. *)
Theorem percentCompleted_amended (progressEvent : AxiosProgressEvent)
    (st : FileUploadState) :
  let percent := uploadProgress (onUploadProgress progressEvent st) in
  onUploadProgress progressEvent st = setUploadProgress percent st
  ∧ (∀ bytesTotal,
       total progressEvent = Some bytesTotal →
       0 < bytesTotal →
       2 * bytesTotal * percent - bytesTotal ≤ 200 * loaded progressEvent
         < 2 * bytesTotal * percent + bytesTotal)
  ∧ (∀ bytesTotal,
       total progressEvent = Some bytesTotal →
       bytesTotal < 0 →
       2 * bytesTotal * percent + bytesTotal < 200 * loaded progressEvent
         ≤ 2 * bytesTotal * percent - bytesTotal)
  ∧ (∀ bytesTotal,
       total progressEvent = Some bytesTotal →
       0 < bytesTotal →
       201 * bytesTotal ≤ 200 * loaded progressEvent →
       100 < percent)
  ∧ (∀ bytesTotal,
       total progressEvent = Some bytesTotal →
       0 < bytesTotal →
       0 ≤ loaded progressEvent ≤ bytesTotal →
       0 ≤ percent ≤ 100 ∧ percent = spec_percentComplete progressEvent)
  ∧ (total progressEvent = None ∨ total progressEvent = Some 0 →
     percent = loaded progressEvent)
  ∧ (∀ outcome,
       uploadProgress (handleSubmit_settled outcome st).1 = uploadProgress st).
Proof.
  destruct progressEvent as [bytesSent bytesTotal']. simpl.
  assert (∀ bytesTotal, bytesTotal' = Some bytesTotal → bytesTotal ≠ 0 →
            percentCompleted {| loaded := bytesSent; total := bytesTotal' |}
            = js_round_div (bytesSent * 100) bytesTotal) as Hknown.
  { intros bytesTotal -> Hne. unfold percentCompleted. simpl.
    replace (bytesTotal =? 0) with false by (symmetry; by apply Z.eqb_neq).
    destruct (bytesSent =? 0) eqn:H0; [apply Z.eqb_eq in H0; by subst | done]. }
  split; [reflexivity|].
  split; [|split; [|split; [|split; [|split]]]].
  - intros bytesTotal Htotal Hpos. rewrite (Hknown bytesTotal) by (done || lia).
    pose proof (js_round_div_nearest (bytesSent * 100) bytesTotal Hpos). lia.
  - intros bytesTotal Htotal Hneg. rewrite (Hknown bytesTotal) by (done || lia).
    unfold js_round_div.
    pose proof (Z.div_mod (2 * (bytesSent * 100) + bytesTotal) (2 * bytesTotal)
                  ltac:(lia)) as Hdiv.
    pose proof (Z.mod_neg_bound (2 * (bytesSent * 100) + bytesTotal) (2 * bytesTotal)
                  ltac:(lia)) as Hmod.
    lia.
  - intros bytesTotal Htotal Hpos Hover. rewrite (Hknown bytesTotal) by (done || lia).
    pose proof (js_round_div_nearest (bytesSent * 100) bytesTotal Hpos) as Hnear.
    nia.
  - intros bytesTotal Htotal Hpos Hrange. rewrite (Hknown bytesTotal) by (done || lia).
    pose proof (js_round_div_nearest (bytesSent * 100) bytesTotal Hpos) as Hnear.
    assert (0 ≤ js_round_div (bytesSent * 100) bytesTotal ≤ 100) as Hbound by nia.
    split; [done|]. unfold spec_percentComplete. simpl. rewrite Htotal.
    replace (bytesTotal =? 0) with false by (symmetry; apply Z.eqb_neq; lia).
    lia.
  - assert (∀ n, js_round_div (if n =? 0 then 0 else n * 100) 100 = n) as Hid.
    { intros n. unfold js_round_div. destruct (n =? 0) eqn:H0.
      - apply Z.eqb_eq in H0. by subst.
      - symmetry. apply (Z.div_unique_pos _ _ _ 100); lia. }
    unfold percentCompleted. simpl. intros [-> | ->]; simpl; apply Hid.
  - intros outcome.
    destruct (handleSubmit_settled_cases outcome st) as [(r & -> & _) | (d & ->)];
      reflexivity.
Qed.

Lemma percentCompleted_amended_witness :
  uploadProgress
    (onUploadProgress {| loaded := 3; total := Some 8 |} readySelection) = 38
  ∧ 100 < uploadProgress
            (onUploadProgress {| loaded := 5; total := Some 3 |} readySelection)
  ∧ uploadProgress
      (onUploadProgress {| loaded := 700; total := Some 0 |} readySelection) = 700.
Proof.
  destruct (percentCompleted_amended {| loaded := 3; total := Some 8 |} readySelection)
    as (_ & _ & _ & _ & Hknown & _).
  destruct (percentCompleted_amended {| loaded := 5; total := Some 3 |} readySelection)
    as (_ & _ & _ & Hover & _).
  destruct (percentCompleted_amended {| loaded := 700; total := Some 0 |} readySelection)
    as (_ & _ & _ & _ & _ & Hunknown & _).
  specialize (Hknown 8 eq_refl ltac:(lia) ltac:(simpl; lia)) as (_ & Hspec).
  split_and!.
  - rewrite Hspec. reflexivity.
  - apply (Hover 3 eq_refl); simpl; lia.
  - rewrite Hunknown; [reflexivity | by right].
Defined.

(** ** The outcome of a submission *)

Lemma submit_ready (st : FileUploadState) (reply : server_reply) :
  canSubmit st = true →
  submit st reply =
  ((handleSubmit_settled (axios_post reply) (setError JNull st)).1,
   OnProcessingStart :: AxiosPost (buildFormData st)
     :: (handleSubmit_settled (axios_post reply) (setError JNull st)).2).
Proof.
  unfold canSubmit, submit, handleSubmit. intros Hcan%negb_true_iff. rewrite Hcan.
  simpl. by destruct (handleSubmit_settled _ _).
Qed.

Lemma submit_not_ready (st : FileUploadState) (reply : server_reply) :
  canSubmit st = false →
  submit st reply = (setError (JStr "Please upload both PDF files and an Excel file") st, []).
Proof.
  unfold canSubmit, submit, handleSubmit. intros Hcan%negb_false_iff. by rewrite Hcan.
Qed.

Lemma axios_post_2xx (response : Response) :
  200 ≤ status response < 300 → axios_post (HttpReply response) = Fulfilled response.
Proof.
  intros [Hlo Hhi]. unfold axios_post.
  apply Z.leb_le in Hlo. apply Z.ltb_lt in Hhi. by rewrite Hlo, Hhi.
Qed.

Lemma axios_post_not_2xx (response : Response) :
  ¬ (200 ≤ status response < 300) →
  axios_post (HttpReply response) = Rejected (AxiosError (Some response)).
Proof.
  intros Hout. unfold axios_post.
  destruct (200 <=? status response) eqn:Hlo, (status response <? 300) eqn:Hhi;
    try reflexivity.
  apply Z.leb_le in Hlo. apply Z.ltb_lt in Hhi. lia.
Qed.

Lemma opt_member_own (v : jsval) (k : string) : opt_member v k = own v k.
Proof. by destruct v. Qed.

Lemma failureResults_fields (detail : jsval) :
  own (failureResults detail) "success" = JBool false
  ∧ own (failureResults detail) "message" = JStr "Processing failed"
  ∧ own (failureResults detail) "error" = detail
  ∧ own (failureResults detail) "outputFile" = JUndefined
  ∧ own (failureResults detail) "sessionId" = JUndefined.
Proof. split_and!; reflexivity. Qed.

Lemma successResults_some (response : Response) :
  data response ≠ JNull → data response ≠ JUndefined →
  successResults response =
  Some (JObj {[ "success" := JBool true;
                "message" := own (data response) "message";
                "outputFile" := own (data response) "outputFile";
                "sessionId" := own (data response) "sessionId" ]}).
Proof. unfold successResults. by destruct (data response). Qed.

Lemma successResults_none (response : Response) :
  data response = JNull ∨ data response = JUndefined → successResults response = None.
Proof. unfold successResults. by intros [-> | ->]. Qed.

Example submit_success_sample :
  delivered
    (submit readySelection
       (HttpReply {| status := 200;
                     data := JObj {[ "message" := JStr "Updated 3 rows";
                                     "outputFile" := JStr "out.xlsx";
                                     "sessionId" := JStr "abc123" ]} |})).2
  = [JObj {[ "success" := JBool true;
             "message" := JStr "Updated 3 rows";
             "outputFile" := JStr "out.xlsx";
             "sessionId" := JStr "abc123" ]}].
Proof. vm_compute. reflexivity. Qed.

Example submit_server_error_sample :
  delivered
    (submit readySelection
       (HttpReply {| status := 500;
                     data := JObj {[ "error" := JStr "Malformed PDF" ]} |})).2
  = [JObj {[ "success" := JBool false;
             "message" := JStr "Processing failed";
             "error" := JStr "Malformed PDF" ]}].
Proof. vm_compute. reflexivity. Qed.

Example submit_network_failure_sample :
  delivered (submit readySelection NoResponse).2
  = [JObj {[ "success" := JBool false;
             "message" := JStr "Processing failed";
             "error" := JStr "An error occurred during processing" ]}].
Proof. vm_compute. reflexivity. Qed.

(** C4. For a submittable selection and a response with a status from 200 to
    299 whose body is an object with a [message] field, the submission
    delivers one result: its [success] is [true], and its [message],
    [outputFile] and [sessionId] read exactly as those of the body, so as
    [undefined] where the body has none. *)
Theorem submit_success_passes_through (st : FileUploadState) (response : Response)
    (fields : gmap string jsval) (message : jsval) :
  canSubmit st = true →
  200 ≤ status response < 300 →
  data response = JObj fields →
  fields !! "message" = Some message →
  ∃ results,
    delivered (submit st (HttpReply response)).2 = [results]
    ∧ own results "success" = JBool true
    ∧ own results "message" = message
    ∧ own results "outputFile" = default JUndefined (fields !! "outputFile")
    ∧ own results "sessionId" = default JUndefined (fields !! "sessionId")
    ∧ own results "error" = JUndefined.
Proof.
  intros Hcan Hstatus Hdata Hmessage.
  rewrite submit_ready by done. rewrite axios_post_2xx by done.
  simpl. rewrite successResults_some by (rewrite Hdata; done).
  eexists. split; [reflexivity|].
  rewrite Hdata. simpl. rewrite Hmessage. split_and!; reflexivity.
Qed.

Lemma submit_success_passes_through_witness :
  ∃ results,
    delivered
      (submit readySelection
         (HttpReply {| status := 201;
                       data := JObj {[ "message" := JStr "Updated 3 rows";
                                       "sessionId" := JStr "abc123" ]} |})).2 = [results]
    ∧ own results "success" = JBool true
    ∧ own results "message" = JStr "Updated 3 rows"
    ∧ own results "outputFile" = JUndefined
    ∧ own results "sessionId" = JStr "abc123"
    ∧ own results "error" = JUndefined.
Proof.
  exact (submit_success_passes_through readySelection
           {| status := 201;
              data := JObj {[ "message" := JStr "Updated 3 rows";
                              "sessionId" := JStr "abc123" ]} |}
           {[ "message" := JStr "Updated 3 rows"; "sessionId" := JStr "abc123" ]}
           (JStr "Updated 3 rows")
           eq_refl ltac:(simpl; lia) eq_refl eq_refl).
Defined.

(** C2, against the claim.  A response with status 200 whose body has no
    [message] field is not treated as a failure: the submission delivers a
    result whose [success] is [true] and whose [message] is [undefined]. *)
Lemma submit_missing_message_counterexample :
  let reply := HttpReply {| status := 200; data := JObj {[ "rows" := JStr "3" ]} |} in
  canSubmit readySelection = true
  ∧ ∃ results,
      delivered (submit readySelection reply).2 = [results]
      ∧ own results "success" = JBool true
      ∧ own results "message" = JUndefined.
Proof.
  simpl. split; [reflexivity|]. eexists. split; [vm_compute; reflexivity|].
  split; reflexivity.
Qed.

(** C2, amended.  A submission fails exactly when the request is rejected
    (no response, or a status outside 200 to 299) or the body of a fulfilled
    request is [null] or [undefined].  It then delivers one result with
    [success] [false] and [message] ["Processing failed"], whose [error] is
    the [error] field of the body of the rejecting response when that field
    is truthy and the fixed text ["An error occurred during processing"]
    otherwise; the same value is shown as the error of the form.  Every other
    response with a status from 200 to 299, whatever its body, delivers a
    result with [success] [true]. *)
Theorem submit_failure_results (st : FileUploadState) (reply : server_reply) :
  canSubmit st = true →
  let fallback := JStr "An error occurred during processing" in
  let outcome := submit st reply in
  (reply = NoResponse →
     delivered outcome.2 = [failureResults fallback] ∧ error outcome.1 = fallback)
  ∧ (∀ response,
       reply = HttpReply response →
       ¬ (200 ≤ status response < 300) →
       let detail :=
         if truthy (own (data response) "error")
         then own (data response) "error" else fallback in
       delivered outcome.2 = [failureResults detail] ∧ error outcome.1 = detail)
  ∧ (∀ response,
       reply = HttpReply response →
       200 ≤ status response < 300 →
       data response = JNull ∨ data response = JUndefined →
       delivered outcome.2 = [failureResults fallback] ∧ error outcome.1 = fallback)
  ∧ (∀ response,
       reply = HttpReply response →
       200 ≤ status response < 300 →
       data response ≠ JNull →
       data response ≠ JUndefined →
       ∃ results, delivered outcome.2 = [results] ∧ own results "success" = JBool true)
  ∧ (∀ detail,
       own (failureResults detail) "success" = JBool false
       ∧ own (failureResults detail) "message" = JStr "Processing failed"
       ∧ own (failureResults detail) "error" = detail).
Proof.
  intros Hcan fallback outcome. subst outcome. rewrite submit_ready by done.
  split_and!.
  - intros ->. simpl. done.
  - intros response -> Hstatus. rewrite axios_post_not_2xx by done.
    simpl. rewrite opt_member_own. unfold js_or. done.
  - intros response -> Hstatus Hdata. rewrite axios_post_2xx by done.
    simpl. rewrite successResults_none by done. done.
  - intros response -> Hstatus Hnull Hundef. rewrite axios_post_2xx by done.
    simpl. rewrite successResults_some by done. eexists. split; reflexivity.
  - intros detail. split_and!; reflexivity.
Qed.

Lemma submit_failure_results_witness :
  delivered
    (submit readySelection
       (HttpReply {| status := 500;
                     data := JObj {[ "error" := JStr "Malformed PDF" ]} |})).2
  = [failureResults (JStr "Malformed PDF")]
  ∧ delivered (submit readySelection NoResponse).2
    = [failureResults (JStr "An error occurred during processing")]
  ∧ delivered (submit readySelection (HttpReply {| status := 200; data := JNull |})).2
    = [failureResults (JStr "An error occurred during processing")].
Proof.
  pose proof (submit_failure_results readySelection
                (HttpReply {| status := 500;
                              data := JObj {[ "error" := JStr "Malformed PDF" ]} |})
                eq_refl) as (_ & Hrejected & _).
  pose proof (submit_failure_results readySelection NoResponse eq_refl)
    as (Hnetwork & _).
  pose proof (submit_failure_results readySelection
                (HttpReply {| status := 200; data := JNull |}) eq_refl)
    as (_ & _ & Hnull & _).
  split_and!.
  - apply (Hrejected _ eq_refl). simpl. lia.
  - apply (Hnetwork eq_refl).
  - apply (Hnull _ eq_refl); [simpl; lia | by left].
Defined.

(** C10. Every result a submission delivers is an object with a boolean
    [success] field; when that is [true] the object has no [error] field, and
    when it is [false] the object has neither an [outputFile] nor a
    [sessionId] field. *)
Theorem delivered_fields_exclusive (st : FileUploadState) (reply : server_reply)
    (results : jsval) :
  results ∈ delivered (submit st reply).2 →
  ∃ fields success,
    results = JObj fields
    ∧ fields !! "success" = Some (JBool success)
    ∧ (success = true → fields !! "error" = None)
    ∧ (success = false →
         fields !! "outputFile" = None ∧ fields !! "sessionId" = None).
Proof.
  destruct (canSubmit st) eqn:Hcan.
  - rewrite submit_ready by done. simpl.
    destruct (axios_post reply) as [response | err]; simpl.
    + destruct (successResults response) as [r|] eqn:Hr; simpl.
      * intros ->%list_elem_of_singleton.
        unfold successResults in Hr.
        destruct (member (data response) "message") as [m|]; [|done].
        destruct (member (data response) "outputFile") as [o|]; [|done].
        destruct (member (data response) "sessionId") as [s|]; [|done].
        simpl in Hr. injection Hr as <-.
        eexists _, true. split_and!; [reflexivity | reflexivity | done | done].
      * intros ->%list_elem_of_singleton.
        eexists _, false. split_and!; [reflexivity | reflexivity | done | done].
    + intros ->%list_elem_of_singleton.
      eexists _, false. split_and!; [reflexivity | reflexivity | done | done].
  - rewrite submit_not_ready by done. simpl. intros []%elem_of_nil.
Qed.

Lemma delivered_fields_exclusive_witness :
  ∃ fields success,
    failureResults (JStr "Malformed PDF") = JObj fields
    ∧ fields !! "success" = Some (JBool success)
    ∧ (success = true → fields !! "error" = None)
    ∧ (success = false →
         fields !! "outputFile" = None ∧ fields !! "sessionId" = None).
Proof.
  apply (delivered_fields_exclusive readySelection
           (HttpReply {| status := 500;
                         data := JObj {[ "error" := JStr "Malformed PDF" ]} |})).
  vm_compute. left.
Defined.

(** ** The page *)

Lemma app_render (pg : Page) : app (render pg) = app pg.
Proof. unfold render. destruct (rendersFileUpload (app pg)), (upload pg); reflexivity. Qed.

Lemma inflight_render (pg : Page) : inflight (render pg) = inflight pg.
Proof. unfold render. destruct (rendersFileUpload (app pg)), (upload pg); reflexivity. Qed.

Lemma render_consistent (pg : Page) : consistent (render pg).
Proof.
  unfold consistent, render.
  destruct (rendersFileUpload (app pg)) eqn:Hshow; [destruct (upload pg) eqn:Hup|]; simpl.
  - rewrite Hup, Hshow. split; eauto.
  - rewrite Hshow. split; eauto.
  - rewrite Hshow. split; [by intros [? ?] | done].
Qed.

Lemma render_on_screen (pg : Page) (st : FileUploadState) :
  rendersFileUpload (app pg) = true → upload pg = Some st → render pg = pg.
Proof. unfold render. by intros -> ->. Qed.

Lemma onInstance_consistent (i : nat) (f : FileUploadState → FileUploadState) (pg : Page) :
  consistent pg → consistent (onInstance i f pg).
Proof.
  unfold consistent, onInstance. case_bool_decide; [|done]. simpl.
  by rewrite fmap_is_Some.
Qed.

Lemma step_consistent (pg : Page) (ev : event) : consistent pg → consistent (step pg ev).
Proof.
  intros Hpg. destruct ev as [fs | fs | index | | k progressEvent | k reply]; simpl.
  1-3: unfold consistent in *; simpl; by rewrite fmap_is_Some.
  - destruct (upload pg) as [st|] eqn:Hup; [|done].
    unfold handleSubmit. destruct (submitDisabled st); simpl.
    + unfold consistent in *. simpl. rewrite <- Hpg, Hup. split; eauto.
    + pose proof (render_consistent
                    (setApp (onProcessingStart (app pg)) (setUpload (Some (setError JNull st)) pg)))
        as Hr.
      unfold consistent in *. simpl. exact Hr.
  - destruct (inflight pg !! k); [by apply onInstance_consistent | done].
  - destruct (inflight pg !! k) as [t|]; [|done].
    destruct (handleSubmit_settled_cases (axios_post reply)
                (default initialFileUpload (instanceState (owner t) pg)))
      as [(r & -> & _) | (d & ->)]; simpl; apply render_consistent.
Qed.

(** On every page that a sequence of events leads to, [FileUpload] is on
    screen exactly when [App] renders it. *)
Lemma reachable_consistent (pg : Page) : reachable pg → consistent pg.
Proof.
  intros [evs ->]. unfold run.
  induction evs as [|ev evs IH] using rev_ind.
  - unfold consistent. simpl. split; eauto.
  - rewrite foldl_app. simpl. by apply step_consistent.
Qed.

Lemma step_submit_ready (pg : Page) (st : FileUploadState) :
  consistent pg → upload pg = Some st → canSubmit st = true →
  step pg Submit =
  {| app := onProcessingStart (app pg);
     mounted := mounted pg;
     upload := Some (setError JNull st);
     inflight := inflight pg ++ [{| owner := mounted pg; body := buildFormData st |}] |}.
Proof.
  intros Hpg Hup Hcan. simpl. rewrite Hup.
  unfold canSubmit in Hcan. apply negb_true_iff in Hcan.
  unfold handleSubmit. rewrite Hcan. simpl.
  rewrite (render_on_screen _ (setError JNull st)); [reflexivity | | reflexivity].
  simpl. apply Hpg. rewrite Hup. eauto.
Qed.

Lemma step_submit_not_ready (pg : Page) (st : FileUploadState) :
  upload pg = Some st → canSubmit st = false →
  step pg Submit
  = setUpload (Some (setError (JStr "Please upload both PDF files and an Excel file") st)) pg.
Proof.
  intros Hup Hcan. simpl. rewrite Hup.
  unfold canSubmit in Hcan. apply negb_false_iff in Hcan.
  unfold handleSubmit. by rewrite Hcan.
Qed.

(** Progress events of a request change neither [App] nor the requests in
    flight nor the files selected. *)
Lemma run_progress (k : nat) (progress : list AxiosProgressEvent) :
  ∀ (pg : Page) (st : FileUploadState),
    upload pg = Some st →
    ∃ st', run pg (UploadProgress k <$> progress) = setUpload (Some st') pg
           ∧ pdfFiles st' = pdfFiles st ∧ excelFile st' = excelFile st.
Proof.
  induction progress as [|progressEvent progress IH]; intros pg st Hup.
  - exists st. split; [|done]. simpl. destruct pg; simpl in *. by subst.
  - assert (∃ st1, step pg (UploadProgress k progressEvent) = setUpload (Some st1) pg
                   ∧ pdfFiles st1 = pdfFiles st ∧ excelFile st1 = excelFile st)
      as (st1 & Hstep & Hpdf & Hexcel).
    { simpl. destruct (inflight pg !! k) as [t|].
      - unfold onInstance. case_bool_decide.
        + rewrite Hup. by eexists.
        + exists st. split; [|done]. destruct pg; simpl in *. by subst.
      - exists st. split; [|done]. destruct pg; simpl in *. by subst. }
    destruct (IH (setUpload (Some st1) pg) st1 eq_refl) as (st' & Hrun & Hpdf' & Hexcel').
    exists st'.
    change (run pg (UploadProgress k <$> progressEvent :: progress))
      with (run (step pg (UploadProgress k progressEvent)) (UploadProgress k <$> progress)).
    rewrite Hstep, Hrun. split; [reflexivity | split; congruence].
Qed.

Lemma run_cons (pg : Page) (ev : event) (evs : list event) :
  run pg (ev :: evs) = run (step pg ev) evs.
Proof. reflexivity. Qed.

Lemma run_snoc (pg : Page) (evs : list event) (ev : event) :
  run pg (evs ++ [ev]) = step (run pg evs) ev.
Proof. unfold run. by rewrite foldl_app. Qed.

(** Settling the request posted last, by the instance on screen. *)
Lemma step_settle_last (a : AppState) (n : nat) (st : FileUploadState)
    (ts : list Transfer) (formData : FormData) (reply : server_reply) :
  step {| app := a; mounted := n; upload := Some st;
          inflight := ts ++ [{| owner := n; body := formData |}] |}
       (Settle (length ts) reply)
  = foldl (perform n)
      {| app := a; mounted := n;
         upload := Some (handleSubmit_settled (axios_post reply) st).1;
         inflight := ts |}
      (handleSubmit_settled (axios_post reply) st).2.
Proof.
  simpl. rewrite (list_lookup_middle ts [] _ (length ts) eq_refl). simpl.
  rewrite (delete_middle ts []), app_nil_r.
  unfold instanceState, onInstance. simpl.
  rewrite !bool_decide_eq_true_2 by done. reflexivity.
Qed.

Example second_submit_sample :
  body <$> inflight (step busyPage Submit)
  = [buildFormData readySelection; buildFormData readySelection].
Proof. vm_compute. reflexivity. Qed.

(** C3, against the claim.  On the page reached by selecting files and
    clicking submit once, a submission is in flight, and a second click posts
    a second request; when the two requests settle, each hands its own result
    to [App], the later one replacing the earlier. *)
Lemma second_submit_counterexample :
  let first := HttpReply {| status := 500; data := JObj {[ "error" := JStr "Malformed PDF" ]} |} in
  let second := NoResponse in
  sessionState (app busyPage) = Submitting
  ∧ length (inflight busyPage) = 1%nat
  ∧ length (inflight (step busyPage Submit)) = 2%nat
  ∧ processingResults (app (run busyPage [Submit; Settle 0 first]))
    = failureResults (JStr "Malformed PDF")
  ∧ processingResults (app (run busyPage [Submit; Settle 0 first; Settle 0 second]))
    = failureResults (JStr "An error occurred during processing").
Proof. simpl. split_and!; vm_compute; reflexivity. Qed.

(** C3, amended.  [handleSubmit] has no guard against a submission in flight:
    the validation of the selection is its only gate.  On every page that
    shows the form with a submittable selection, whatever the session state
    and however many requests are in flight, a click on submit posts one more
    request and the session is [Submitting]; when that request settles, its
    result is handed to [App] and becomes the stored result.  A click with a
    selection that is not submittable posts nothing. *)
Theorem submit_posts_in_every_state (pg : Page) (st : FileUploadState) :
  consistent pg →
  upload pg = Some st →
  (canSubmit st = true →
     inflight (step pg Submit)
     = inflight pg ++ [{| owner := mounted pg; body := buildFormData st |}]
     ∧ sessionState (app (step pg Submit)) = Submitting
     ∧ ∀ reply, ∃ results,
         delivered (submit st reply).2 = [results]
         ∧ processingResults
             (app (step (step pg Submit) (Settle (length (inflight pg)) reply)))
           = results)
  ∧ (canSubmit st = false → inflight (step pg Submit) = inflight pg).
Proof.
  intros Hpg Hup. split; intros Hcan.
  - rewrite (step_submit_ready pg st) by done.
    split_and!; [reflexivity | reflexivity |].
    intros reply. rewrite step_settle_last. rewrite submit_ready by done. simpl.
    destruct (handleSubmit_settled_cases (axios_post reply) (setError JNull st))
      as [(r & -> & _) | (d & ->)]; simpl; rewrite app_render; by eexists.
  - by rewrite (step_submit_not_ready pg st).
Qed.

Lemma submit_posts_in_every_state_witness :
  sessionState (app busyPage) = Submitting
  ∧ inflight (step busyPage Submit)
    = inflight busyPage
      ++ [{| owner := mounted busyPage; body := buildFormData (setError JNull readySelection) |}].
Proof.
  split; [reflexivity|].
  destruct (submit_posts_in_every_state busyPage (setError JNull readySelection))
    as [Hready _].
  - apply reachable_consistent.
    by exists [DropPdf [sheetPdf; notesTxt; secondPdf]; DropExcel [inventoryXlsx]; Submit].
  - reflexivity.
  - apply Hready. reflexivity.
Defined.



(* ================================================================= *)
(** * Further properties of the components *)

(** ** The selection handlers together *)

Lemma pdfFiles_onDropPdf (candidates : list File) (st : FileUploadState) :
  pdfFiles (onDropPdf candidates st)
  = pdfFiles st ++ filter (λ file, type file = "application/pdf") candidates.
Proof.
  unfold onDropPdf.
  destruct (filter _ candidates); simpl; [by rewrite app_nil_r | done].
Qed.

Lemma error_onDropPdf (candidates : list File) (st : FileUploadState) :
  error (onDropPdf candidates st)
  = match filter (λ file, type file = "application/pdf") candidates with
    | [] => JStr "Please upload valid PDF files"
    | _ :: _ => JNull
    end.
Proof. unfold onDropPdf. by destruct (filter _ candidates). Qed.

Lemma pdfFiles_removePdfFile (index : Z) (st : FileUploadState) :
  0 ≤ index < Z.of_nat (length (pdfFiles st)) →
  pdfFiles (removePdfFile index st) = delete (Z.to_nat index) (pdfFiles st).
Proof.
  intros Hin. unfold removePdfFile, js_filter, setPdfFiles. simpl.
  rewrite filter_from_other_index. replace (index - 0) with index by lia.
  rewrite bool_decide_eq_true_2 by lia. by rewrite delete_take_drop.
Qed.

Example onDropPdf_batches_sample :
  pdfFiles (onDropPdf [notesTxt] (onDropPdf [sheetPdf; secondPdf] initialFileUpload))
  = pdfFiles (onDropPdf [sheetPdf; secondPdf; notesTxt] initialFileUpload)
  ∧ error (onDropPdf [notesTxt] (onDropPdf [sheetPdf; secondPdf] initialFileUpload))
    ≠ error (onDropPdf [sheetPdf; secondPdf; notesTxt] initialFileUpload).
Proof. split; [reflexivity | discriminate]. Qed.

(** X1. Offering documents in two batches selects the same documents, in the
    same order, as offering them in one; the spreadsheet is the same too.
    The message differs: it is decided by the last batch alone, so a last
    batch without a PDF reports the rejection although documents of the first
    batch were accepted. *)
Theorem onDropPdf_batches (first second : list File) (st : FileUploadState) :
  pdfFiles (onDropPdf second (onDropPdf first st))
  = pdfFiles (onDropPdf (first ++ second) st)
  ∧ excelFile (onDropPdf second (onDropPdf first st))
    = excelFile (onDropPdf (first ++ second) st)
  ∧ error (onDropPdf second (onDropPdf first st)) = error (onDropPdf second st).
Proof.
  split_and!.
  - rewrite !pdfFiles_onDropPdf, list.filter_app. by rewrite app_assoc.
  - unfold onDropPdf.
    by destruct (filter _ first), (filter _ second), (filter _ (first ++ second)).
  - by rewrite !error_onDropPdf.
Qed.

(** X2. Removing after offering.  A position among the documents selected
    before commutes with the offer: removing it afterwards gives the same
    documents as removing it first.  A position among the newly accepted
    documents removes that one of them and leaves the earlier documents
    alone. *)
Theorem removePdfFile_after_onDropPdf (candidates : list File) (st : FileUploadState)
    (index : Z) :
  let accepted := filter (λ file, type file = "application/pdf") candidates in
  let before := Z.of_nat (length (pdfFiles st)) in
  (0 ≤ index < before →
     pdfFiles (removePdfFile index (onDropPdf candidates st))
     = pdfFiles (onDropPdf candidates (removePdfFile index st)))
  ∧ (before ≤ index < before + Z.of_nat (length accepted) →
       pdfFiles (removePdfFile index (onDropPdf candidates st))
       = pdfFiles st ++ delete (Z.to_nat (index - before)) accepted).
Proof.
  intros accepted before. subst before. split; intros Hin.
  - rewrite pdfFiles_removePdfFile
      by (rewrite pdfFiles_onDropPdf, length_app; lia).
    rewrite !pdfFiles_onDropPdf, pdfFiles_removePdfFile by lia.
    fold accepted.
    rewrite !delete_take_drop, take_app_le, drop_app_le by lia.
    by rewrite app_assoc.
  - rewrite pdfFiles_removePdfFile
      by (rewrite pdfFiles_onDropPdf, length_app; fold accepted; lia).
    rewrite pdfFiles_onDropPdf. fold accepted.
    rewrite !delete_take_drop, take_app_ge, drop_app_ge by lia.
    rewrite <- app_assoc. repeat f_equal; lia.
Qed.

Lemma removePdfFile_after_onDropPdf_witness :
  pdfFiles (removePdfFile 0 (onDropPdf [secondPdf] (onDropPdf [sheetPdf] initialFileUpload)))
  = [secondPdf]
  ∧ pdfFiles (removePdfFile 1 (onDropPdf [notesTxt; secondPdf] (onDropPdf [sheetPdf] initialFileUpload)))
    = [sheetPdf].
Proof.
  destruct (removePdfFile_after_onDropPdf [secondPdf]
              (onDropPdf [sheetPdf] initialFileUpload) 0) as [Hold _].
  destruct (removePdfFile_after_onDropPdf [notesTxt; secondPdf]
              (onDropPdf [sheetPdf] initialFileUpload) 1) as [_ Hnew].
  split.
  - rewrite Hold; [reflexivity | simpl; lia].
  - rewrite Hnew; [reflexivity | simpl; lia].
Defined.

(** ** The body of the request *)

Lemma getAll_app (field : string) (a b : list (string * File)) :
  getAll field (a ++ b) = getAll field a ++ getAll field b.
Proof. unfold getAll. by rewrite list.filter_app, fmap_app. Qed.

Lemma getAll_parts_same (field : string) (files : list File) :
  getAll field ((λ file, (field, file)) <$> files) = files.
Proof.
  unfold getAll. induction files as [|file files IH]; [reflexivity|].
  rewrite fmap_cons, filter_cons_True by reflexivity.
  rewrite fmap_cons. simpl snd. by rewrite IH.
Qed.

Lemma getAll_parts_other (field other : string) (files : list File) :
  other ≠ field → getAll field ((λ file, (other, file)) <$> files) = [].
Proof.
  intros Hne. unfold getAll. induction files as [|file files IH]; [reflexivity|].
  rewrite fmap_cons, filter_cons_False by (simpl; congruence). exact IH.
Qed.

(** X3. The body [handleSubmit] builds can be read back: the values under
    [pdfFiles] are the selected documents in their order, the value under
    [excelFile] is the selected spreadsheet and the only one, and the body
    has no part under any other name. *)
Theorem buildFormData_reads_back (st : FileUploadState) :
  getAll "pdfFiles" (buildFormData st) = pdfFiles st
  ∧ get "excelFile" (buildFormData st) = excelFile st
  ∧ length (getAll "excelFile" (buildFormData st)) = length (option_list (excelFile st))
  ∧ (∀ field, field ≠ "pdfFiles" → field ≠ "excelFile" →
       getAll field (buildFormData st) = [])
  ∧ length (buildFormData st)
    = (length (pdfFiles st) + length (option_list (excelFile st)))%nat.
Proof.
  unfold buildFormData, get. split_and!.
  - rewrite getAll_app, getAll_parts_same.
    destruct (excelFile st); simpl; by rewrite app_nil_r.
  - rewrite getAll_app, getAll_parts_other by done.
    by destruct (excelFile st).
  - rewrite getAll_app, getAll_parts_other by done.
    by destruct (excelFile st).
  - intros field Hpdf Hexcel.
    rewrite getAll_app, getAll_parts_other by done.
    destruct (excelFile st); simpl; [|reflexivity].
    unfold getAll. rewrite filter_cons_False by (simpl; congruence). reflexivity.
  - rewrite length_app, length_fmap. by destruct (excelFile st).
Qed.

Lemma buildFormData_reads_back_witness :
  getAll "upload" (buildFormData readySelection) = [].
Proof.
  destruct (buildFormData_reads_back readySelection) as (_ & _ & _ & Hother & _).
  apply Hother; discriminate.
Defined.

(** ** The error banner *)

Lemma catchErrorMessage_truthy (err : thrown) : truthy (catchErrorMessage err) = true.
Proof.
  destruct err as [response|]; simpl; [|reflexivity].
  unfold js_or. by destruct (truthy (opt_member _ _)) eqn:H.
Qed.

Lemma successResults_success (response : Response) (results : jsval) :
  successResults response = Some results → own results "success" = JBool true.
Proof.
  unfold successResults. intros Hr.
  destruct (member (data response) "message") as [m|]; [|done].
  destruct (member (data response) "outputFile") as [o|]; [|done].
  destruct (member (data response) "sessionId") as [s|]; [|done].
  simpl in Hr. by injection Hr as <-.
Qed.

Lemma handleSubmit_settled_try_or_catch (outcome : settled) (st : FileUploadState) :
  (∃ results,
     handleSubmit_settled outcome st = (st, [OnProcessingComplete results])
     ∧ own results "success" = JBool true)
  ∨ (∃ err, handleSubmit_settled outcome st = handleSubmit_catch err st).
Proof.
  destruct outcome as [response | err]; simpl; [|right; by eexists].
  destruct (successResults response) as [r|] eqn:Hr; [left | right; by eexists].
  exists r. split; [reflexivity | by apply (successResults_success response)].
Qed.

(** X4. The error a failed submission leaves in the form.  Whenever the second
    part of [handleSubmit] delivers a result with [success] [false], the error
    it stores is truthy and is the [error] of that result, whose [message] is
    ["Processing failed"].  The banner then shows that error when it is a
    valid React child; when it is not, as for a server error that is a plain
    object, rendering the banner throws.  A result with [success] [true]
    leaves the stored error as it was. *)
Theorem failure_shows_error (outcome : settled) (st : FileUploadState) (results : jsval) :
  results ∈ delivered (handleSubmit_settled outcome st).2 →
  (own results "success" = JBool false →
     truthy (error (handleSubmit_settled outcome st).1) = true
     ∧ error (handleSubmit_settled outcome st).1 = own results "error"
     ∧ own results "message" = JStr "Processing failed"
     ∧ (validChild (own results "error") = true →
          errorBanner (handleSubmit_settled outcome st).1
          = Rendered (Some (own results "error")))
     ∧ (validChild (own results "error") = false →
          errorBanner (handleSubmit_settled outcome st).1 = Crash))
  ∧ (own results "success" = JBool true →
       error (handleSubmit_settled outcome st).1 = error st).
Proof.
  destruct (handleSubmit_settled_try_or_catch outcome st) as [(r & -> & Hr) | (err & ->)].
  - simpl. intros ->%list_elem_of_singleton. split; [|done].
    rewrite Hr. discriminate.
  - unfold handleSubmit_catch.
    pose proof (catchErrorMessage_truthy err) as Htruthy.
    revert Htruthy. generalize (catchErrorMessage err). intros e Htruthy.
    cbn [fst snd]. intros ->%list_elem_of_singleton.
    split; [|discriminate].
    intros _. unfold errorBanner.
    change (own (failureResults e) "error") with e.
    change (error (setError e st)) with e.
    rewrite Htruthy.
    destruct (validChild e); split_and!; done.
Qed.

Lemma failure_shows_error_witness :
  errorBanner (handleSubmit_settled (axios_post NoResponse) readySelection).1
  = Rendered (Some (JStr "An error occurred during processing"))
  ∧ errorBanner
      (handleSubmit_settled
         (axios_post
            (HttpReply {| status := 500;
                          data := JObj {[ "error" := JObj {[ "code" := JStr "E42" ]} ]} |}))
         readySelection).1
    = Crash.
Proof.
  destruct (failure_shows_error (axios_post NoResponse) readySelection
              (failureResults (JStr "An error occurred during processing")))
    as [Hfail _]; [vm_compute; left|].
  destruct (failure_shows_error
              (axios_post
                 (HttpReply {| status := 500;
                               data := JObj {[ "error" := JObj {[ "code" := JStr "E42" ]} ]} |}))
              readySelection
              (failureResults (JObj {[ "code" := JStr "E42" ]})))
    as [Hobject _]; [vm_compute; left|].
  destruct (Hfail eq_refl) as (_ & _ & _ & Hshown & _).
  destruct (Hobject eq_refl) as (_ & _ & _ & _ & Hcrash).
  split; [apply Hshown | apply Hcrash]; reflexivity.
Defined.

(** ** The progress bar *)



Example rendersProgressBar_sample :
  rendersProgressBar (onUploadProgress {| loaded := 54000; total := Some 108353 |} readySelection)
  = true
  ∧ rendersProgressBar (onUploadProgress {| loaded := 108353; total := Some 108353 |} readySelection)
    = false.
Proof. split; reflexivity. Qed.



(** ** The size of the spreadsheet on screen *)

Example excelSizeLabel_sample :
  excelSizeLabel inventoryXlsx = "0.01 MB"
  ∧ excelSizeLabel {| name := "big.xlsx"; size := 13107200; type := "x" |} = "12.50 MB"
  ∧ excelSizeLabel {| name := "one.xlsx"; size := 1048576; type := "x" |} = "1.00 MB".
Proof. split_and!; vm_compute; reflexivity. Qed.

(** X6. The size shown for the selected spreadsheet.  The number of
    hundredths of a megabyte that is printed is the nearest to the size in
    units of 1048576 bytes, so it is off by at most half a hundredth; it grows
    with the size; and every spreadsheet smaller than 5243 bytes is shown as
    ["0.00 MB"], while from 5243 bytes on at least one hundredth is
    counted. *)
Theorem excelSizeLabel_accuracy (file other : File) :
  let shown := Z.of_N (sizeHundredths (size file)) in
  2097152 * shown - 1048576 ≤ 200 * Z.of_N (size file) < 2097152 * shown + 1048576
  ∧ ((size file ≤ size other)%N →
       (sizeHundredths (size file) ≤ sizeHundredths (size other))%N)
  ∧ ((size file < 5243)%N → excelSizeLabel file = "0.00 MB")
  ∧ ((5243 ≤ size file)%N → (1 ≤ sizeHundredths (size file))%N).
Proof.
  assert (∀ bytes : N, 0 ≤ js_round_div (Z.of_N bytes * 100) (1024 * 1024)) as Hnonneg.
  { intros bytes. unfold js_round_div. apply Z.div_pos; lia. }
  assert (∀ bytes : N,
            Z.of_N (sizeHundredths bytes) = js_round_div (Z.of_N bytes * 100) (1024 * 1024))
    as Hshown.
  { intros bytes. unfold sizeHundredths. rewrite Z2N.id; [reflexivity | apply Hnonneg]. }
  simpl. split; [|split; [|split]].
  - rewrite Hshown.
    pose proof (js_round_div_nearest (Z.of_N (size file) * 100) (1024 * 1024) ltac:(lia)).
    lia.
  - intros Hle. apply N2Z.inj_le. rewrite !Hshown. unfold js_round_div.
    apply Z.div_le_mono; lia.
  - intros Hsmall. unfold excelSizeLabel.
    assert (sizeHundredths (size file) = 0%N) as ->; [|reflexivity].
    apply N2Z.inj. rewrite Hshown. unfold js_round_div.
    apply Z.div_small. lia.
  - intros Hbig. apply N2Z.inj_le. rewrite Hshown. unfold js_round_div.
    apply Z.div_le_lower_bound; lia.
Qed.

Lemma excelSizeLabel_accuracy_witness :
  excelSizeLabel {| name := "tiny.xlsx"; size := 5242; type := "x" |} = "0.00 MB"
  ∧ (1 ≤ sizeHundredths (size inventoryXlsx))%N
  ∧ (sizeHundredths (size stockXlsx) ≤ sizeHundredths (size inventoryXlsx))%N.
Proof.
  destruct (excelSizeLabel_accuracy
              {| name := "tiny.xlsx"; size := 5242; type := "x" |} inventoryXlsx)
    as (_ & _ & Hsmall & _).
  destruct (excelSizeLabel_accuracy inventoryXlsx stockXlsx) as (_ & _ & _ & Hbig).
  destruct (excelSizeLabel_accuracy stockXlsx inventoryXlsx) as (_ & Hmono & _).
  split_and!.
  - apply Hsmall. simpl. lia.
  - apply Hbig. simpl. lia.
  - apply Hmono. simpl. lia.
Defined.

(** ** Invariants of the page *)

Lemma Forall_filter_from {A : Type} (P : A → Prop) (p : A → Z → bool) (l : list A) :
  ∀ i, Forall P l → Forall P (filter_from p i l).
Proof.
  induction l as [|x l IH]; intros i Hl; simpl; [constructor|].
  inversion_clear Hl as [|? ? Hx Hl'].
  destruct (p x i); [constructor; [done|] |]; by apply IH.
Qed.

Lemma validSelection_same (st st' : FileUploadState) :
  pdfFiles st' = pdfFiles st → excelFile st' = excelFile st →
  validSelection st → validSelection st'.
Proof. unfold validSelection. by intros -> ->. Qed.

Lemma validSelection_initial : validSelection initialFileUpload.
Proof. split; [constructor | by intros file [=]]. Qed.

Lemma validSelection_onDropPdf (candidates : list File) (st : FileUploadState) :
  validSelection st → validSelection (onDropPdf candidates st).
Proof.
  intros [Hpdf Hexcel]. split.
  - rewrite pdfFiles_onDropPdf. apply Forall_app. split; [done|].
    apply list.Forall_forall. by intros file [? _]%list_elem_of_filter.
  - unfold onDropPdf. by destruct (0 <? _)%nat.
Qed.

Lemma validSelection_onDropExcel (candidates : list File) (st : FileUploadState) :
  validSelection st → validSelection (onDropExcel candidates st).
Proof.
  intros [Hpdf Hexcel]. unfold onDropExcel.
  destruct (candidates !! 0%nat) as [file|]; [|by split].
  destruct (endsWith (name file) ".xlsx") eqn:Hends; [|by split].
  split; [done|]. simpl. by intros ? [= <-].
Qed.

Lemma validSelection_removePdfFile (index : Z) (st : FileUploadState) :
  validSelection st → validSelection (removePdfFile index st).
Proof.
  intros [Hpdf Hexcel]. split; [|done].
  simpl. by apply Forall_filter_from.
Qed.

Lemma validSelection_settled (outcome : settled) (st : FileUploadState) :
  validSelection st → validSelection (handleSubmit_settled outcome st).1.
Proof.
  destruct (handleSubmit_settled_cases outcome st) as [(r & -> & _) | (d & ->)];
    [done | by apply validSelection_same].
Qed.

Lemma validBody_buildFormData (st : FileUploadState) :
  validSelection st → canSubmit st = true → validBody (buildFormData st).
Proof.
  intros [Hpdf Hexcel] Hcan. unfold canSubmit, submitDisabled in Hcan.
  apply negb_true_iff, orb_false_iff in Hcan as [Hlen Hsome].
  apply negb_false_iff, bool_decide_eq_true in Hsome as [sheet Hsheet].
  exists (pdfFiles st), sheet. unfold buildFormData. rewrite Hsheet. simpl.
  split_and!; [done | | done | by apply Hexcel].
  intros Hnil. by rewrite Hnil in Hlen.
Qed.

Lemma validPage_render (pg : Page) : validPage pg → validPage (render pg).
Proof.
  intros [Hsel Hflight]. unfold render.
  destruct (rendersFileUpload (app pg)); [destruct (upload pg) eqn:Hup|].
  - split; [by rewrite Hup|done].
  - split; [|done]. simpl. intros st [= <-]. apply validSelection_initial.
  - split; [|done]. simpl. by intros st [=].
Qed.

Lemma validPage_update (f : FileUploadState → FileUploadState) (pg : Page) :
  (∀ st, validSelection st → validSelection (f st)) →
  validPage pg → validPage (setUpload (f <$> upload pg) pg).
Proof.
  intros Hf [Hsel Hflight]. split; [|done]. simpl.
  destruct (upload pg) as [st0|]; simpl; [|by intros st [=]].
  intros st [= <-]. by apply Hf, Hsel.
Qed.

Lemma validPage_onInstance (i : nat) (f : FileUploadState → FileUploadState) (pg : Page) :
  (∀ st, validSelection st → validSelection (f st)) →
  validPage pg → validPage (onInstance i f pg).
Proof.
  intros Hf Hpg. unfold onInstance. case_bool_decide; [by apply validPage_update | done].
Qed.

Lemma step_validPage (pg : Page) (ev : event) : validPage pg → validPage (step pg ev).
Proof.
  intros Hpg. destruct ev as [fs | fs | index | | k progressEvent | k reply]; simpl.
  - apply validPage_update; [apply validSelection_onDropPdf | done].
  - apply validPage_update; [apply validSelection_onDropExcel | done].
  - apply validPage_update; [apply validSelection_removePdfFile | done].
  - destruct (upload pg) as [st|] eqn:Hup; [|done].
    assert (validSelection st) as Hst by (by apply Hpg).
    unfold handleSubmit. destruct (submitDisabled st) eqn:Hdis; simpl.
    + split; [|apply Hpg]. simpl. intros ? [= <-]. by apply (validSelection_same st).
    + set (pg1 := render _).
      assert (validPage pg1) as [Hsel1 Hflight1].
      { apply validPage_render. split; [|apply Hpg].
        simpl. intros ? [= <-]. by apply (validSelection_same st). }
      split; [done|]. simpl. apply Forall_app. split; [done|].
      apply Forall_singleton. simpl. apply validBody_buildFormData; [done|].
      unfold canSubmit. by rewrite Hdis.
  - destruct (inflight pg !! k); [|done].
    apply validPage_onInstance; [|done]. intros st. by apply validSelection_same.
  - destruct (inflight pg !! k) as [t|]; [|done].
    set (st0 := default initialFileUpload (instanceState (owner t) pg)).
    set (pg1 := onInstance _ _ _).
    assert (validPage pg1) as Hpg1.
    { apply validPage_onInstance; [intros st; apply validSelection_settled|].
      split; [apply Hpg|]. simpl. apply Forall_delete, Hpg. }
    destruct (handleSubmit_settled_cases (axios_post reply) st0)
      as [(r & -> & _) | (d & ->)]; simpl;
      apply validPage_render; split; apply Hpg1.
Qed.

Lemma reachable_validPage (pg : Page) : reachable pg → validPage pg.
Proof.
  intros [evs ->]. induction evs as [|ev evs IH] using rev_ind.
  - split; [|constructor]. simpl. intros st [= <-]. apply validSelection_initial.
  - rewrite run_snoc. by apply step_validPage.
Qed.

(** X7. On every page that a sequence of events leads to, each document in
    the selection has the media type [application/pdf] and the name of the
    selected spreadsheet, if there is one, ends in [.xlsx]: no handler lets
    another file in. *)
Theorem reachable_selection_valid (pg : Page) (st : FileUploadState) :
  reachable pg →
  upload pg = Some st →
  (∀ file, file ∈ pdfFiles st → type file = "application/pdf")
  ∧ (∀ file, excelFile st = Some file → ∃ stem, name file = stem +:+ ".xlsx").
Proof.
  intros Hreach Hup.
  destruct (reachable_validPage pg Hreach) as [Hsel _].
  destruct (Hsel st Hup) as [Hpdf Hexcel]. split.
  - by apply list.Forall_forall.
  - intros file Hfile. by apply endsWith_spec, Hexcel.
Qed.

Lemma reachable_selection_valid_witness :
  (∀ file, file ∈ [sheetPdf; secondPdf] → type file = "application/pdf")
  ∧ (∀ file, Some inventoryXlsx = Some file → ∃ stem, name file = stem +:+ ".xlsx").
Proof.
  apply (reachable_selection_valid
           (run initialPage
              [DropPdf [sheetPdf; notesTxt; secondPdf]; DropExcel [legacyXls];
               DropExcel [inventoryXlsx]; Submit; Settle 0 NoResponse])
           (setError (JStr "An error occurred during processing") readySelection)).
  - by eexists.
  - reflexivity.
Defined.

(** ** Settling a request on any page *)

Lemma settled_effects_uniform (outcome : settled) :
  ∃ results, ∀ st, (handleSubmit_settled outcome st).2 = [OnProcessingComplete results].
Proof.
  destruct outcome as [response | err]; simpl.
  - destruct (successResults response); eexists; intros st; reflexivity.
  - eexists. intros st. reflexivity.
Qed.

Lemma step_settle_at (pg : Page) (k : nat) (t : Transfer) (reply : server_reply) :
  inflight pg !! k = Some t →
  ∃ results,
    (∀ st, (handleSubmit_settled (axios_post reply) st).2 = [OnProcessingComplete results])
    ∧ step pg (Settle k reply)
      = render
          (setApp (handleProcessingComplete results (app pg))
             (onInstance (owner t) (λ st, (handleSubmit_settled (axios_post reply) st).1)
                (setInflight (delete k (inflight pg)) pg))).
Proof.
  intros Hk. destruct (settled_effects_uniform (axios_post reply)) as [results Hresults].
  exists results. split; [done|]. simpl. rewrite Hk, Hresults. reflexivity.
Qed.

Lemma inflight_onInstance (i : nat) (f : FileUploadState → FileUploadState) (pg : Page) :
  inflight (onInstance i f pg) = inflight pg.
Proof. unfold onInstance. by case_bool_decide. Qed.

Lemma app_onInstance (i : nat) (f : FileUploadState → FileUploadState) (pg : Page) :
  app (onInstance i f pg) = app pg.
Proof. unfold onInstance. by case_bool_decide. Qed.

Example settle_while_pending_sample :
  let pg := step (step busyPage Submit) (Settle 0 NoResponse) in
  isProcessing (app pg) = false ∧ length (inflight pg) = 1%nat.
Proof. split; reflexivity. Qed.

(** X9. Whenever a request in flight settles, with whatever reply, [App]
    stops showing the processing indicator and the session is no longer
    [Submitting], while exactly that one request leaves the set in flight: if
    more requests were in flight they still are, without the indicator. *)
Theorem settle_clears_isProcessing (pg : Page) (k : nat) (t : Transfer)
    (reply : server_reply) :
  inflight pg !! k = Some t →
  isProcessing (app (step pg (Settle k reply))) = false
  ∧ sessionState (app (step pg (Settle k reply))) ≠ Submitting
  ∧ inflight (step pg (Settle k reply)) = delete k (inflight pg)
  ∧ length (inflight (step pg (Settle k reply))) = (length (inflight pg) - 1)%nat.
Proof.
  intros Hk. destruct (step_settle_at pg k t reply Hk) as (results & _ & ->).
  assert (inflight
            (render
               (setApp (handleProcessingComplete results (app pg))
                  (onInstance (owner t)
                     (λ st, (handleSubmit_settled (axios_post reply) st).1)
                     (setInflight (delete k (inflight pg)) pg))))
          = delete k (inflight pg)) as Hflight.
  { rewrite inflight_render. simpl. by rewrite inflight_onInstance. }
  rewrite app_render, Hflight. simpl. split_and!; try done.
  - unfold sessionState. simpl. destruct results; try done; by destruct (truthy _).
  - rewrite length_delete; [done | by eexists].
Qed.

Lemma settle_clears_isProcessing_witness :
  isProcessing (app (step (step busyPage Submit) (Settle 1 NoResponse))) = false
  ∧ length (inflight (step (step busyPage Submit) (Settle 1 NoResponse))) = 1%nat.
Proof.
  destruct (settle_clears_isProcessing (step busyPage Submit) 1
              {| owner := 1; body := buildFormData readySelection |} NoResponse eq_refl)
    as (Hproc & _ & _ & Hlen).
  split; [exact Hproc | exact Hlen].
Defined.

(** X10. What is on screen after a success.  [App] never renders the form
    and the download section together.  When a submission ends with a status
    from 200 to 299 and a body whose [outputFile] is missing or falsy, the
    form leaves the screen, with its selection, and no download section takes
    its place: the session is [Succeeded] with neither on screen. *)
Theorem success_without_file_shows_nothing (pg : Page) (st : FileUploadState)
    (response : Response) :
  (∀ a, rendersDownloadSection a = true → rendersFileUpload a = false)
  ∧ (consistent pg →
     upload pg = Some st →
     canSubmit st = true →
     200 ≤ status response < 300 →
     data response ≠ JNull →
     data response ≠ JUndefined →
     truthy (own (data response) "outputFile") = false →
     let pg' := step (step pg Submit) (Settle (length (inflight pg)) (HttpReply response)) in
     upload pg' = None
     ∧ rendersFileUpload (app pg') = false
     ∧ rendersDownloadSection (app pg') = false
     ∧ downloadSection (app pg') = None
     ∧ isProcessing (app pg') = false
     ∧ sessionState (app pg') = Succeeded).
Proof.
  split.
  - intros a. unfold rendersDownloadSection, rendersFileUpload.
    by destruct (truthy (opt_member _ _)).
  - intros Hpg Hup Hcan Hstatus Hnull Hundef Hfile pg'. subst pg'.
    rewrite (step_submit_ready pg st) by done. rewrite step_settle_last.
    rewrite axios_post_2xx by done. unfold handleSubmit_settled.
    rewrite successResults_some by done.
    cbn [fst snd foldl perform]. unfold setApp. cbn [app mounted upload inflight].
    assert (∀ a n u ts, rendersFileUpload a = false →
              render {| app := a; mounted := n; upload := u; inflight := ts |}
              = {| app := a; mounted := n; upload := None; inflight := ts |}) as Hrender.
    { intros a n u ts Ha. unfold render. simpl. by rewrite Ha. }
    rewrite Hrender by reflexivity. cbn [app mounted upload inflight].
    assert (rendersDownloadSection
              (handleProcessingComplete
                 (JObj {[ "success" := JBool true;
                          "message" := own (data response) "message";
                          "outputFile" := own (data response) "outputFile";
                          "sessionId" := own (data response) "sessionId" ]})
                 (onProcessingStart (app pg))) = false) as Hdown.
    { unfold rendersDownloadSection.
      cbn [processingResults handleProcessingComplete].
      match goal with
      | |- context [own (JObj ?fields) "outputFile"] =>
          replace (own (JObj fields) "outputFile")
            with (own (data response) "outputFile") by reflexivity
      end.
      rewrite Hfile. apply andb_false_r. }
    unfold downloadSection. rewrite Hdown. split_and!; reflexivity.
Qed.

Lemma success_without_file_shows_nothing_witness :
  let pg' :=
    step (step readyPage Submit)
      (Settle 0 (HttpReply {| status := 200;
                              data := JObj {[ "message" := JStr "Nothing to update" ]} |})) in
  upload pg' = None ∧ rendersDownloadSection (app pg') = false.
Proof.
  destruct (success_without_file_shows_nothing readyPage readySelection
              {| status := 200; data := JObj {[ "message" := JStr "Nothing to update" ]} |})
    as [_ Hblank].
  destruct Hblank as (Hup & _ & Hdown & _).
  - apply reachable_consistent.
    by exists [DropPdf [sheetPdf; notesTxt; secondPdf]; DropExcel [inventoryXlsx]].
  - reflexivity.
  - reflexivity.
  - simpl. lia.
  - discriminate.
  - discriminate.
  - reflexivity.
  - split; [exact Hup | exact Hdown].
Defined.

Lemma step_submit_settle_success (pg : Page) (st : FileUploadState) (response : Response) :
  consistent pg →
  upload pg = Some st →
  canSubmit st = true →
  200 ≤ status response < 300 →
  data response ≠ JNull →
  data response ≠ JUndefined →
  step (step pg Submit) (Settle (length (inflight pg)) (HttpReply response))
  = {| app :=
         handleProcessingComplete
           (JObj {[ "success" := JBool true;
                    "message" := own (data response) "message";
                    "outputFile" := own (data response) "outputFile";
                    "sessionId" := own (data response) "sessionId" ]})
           (onProcessingStart (app pg));
       mounted := mounted pg;
       upload := None;
       inflight := inflight pg |}.
Proof.
  intros Hpg Hup Hcan Hstatus Hnull Hundef.
  rewrite (step_submit_ready pg st) by done. rewrite step_settle_last.
  rewrite axios_post_2xx by done. unfold handleSubmit_settled.
  rewrite successResults_some by done.
  cbn [fst snd foldl perform]. unfold setApp. cbn [app mounted upload inflight].
  unfold render. cbn [app mounted upload inflight].
  replace (rendersFileUpload _) with false by reflexivity. reflexivity.
Qed.

(** X11. The download section after a success.  When a submission ends with
    a status from 200 to 299 and an object body whose [outputFile] is a
    non-empty string, the form leaves the screen and [App] creates the
    download section with that file name and the [message] of the body.  Its
    [sessionId] is that of the body when that is a non-empty string and the
    empty string when the body has none, and with an empty session the
    download address has two slashes before the file name.  The section
    appears on screen when the [message] is a valid React child, so a string
    or a missing one; for a [message] that is a plain object its render
    throws. *)
Theorem success_with_file_shows_download (pg : Page) (st : FileUploadState)
    (response : Response) (fields : gmap string jsval) (file : string) :
  consistent pg →
  upload pg = Some st →
  canSubmit st = true →
  200 ≤ status response < 300 →
  data response = JObj fields →
  fields !! "outputFile" = Some (JStr file) →
  file ≠ EmptyString →
  let pg' := step (step pg Submit) (Settle (length (inflight pg)) (HttpReply response)) in
  let message := default JUndefined (fields !! "message") in
  upload pg' = None
  ∧ (∃ props,
       downloadSection (app pg') = Some props
       ∧ DownloadSection.filename props = JStr file
       ∧ DownloadSection.message props = message
       ∧ (∀ session, fields !! "sessionId" = Some (JStr session) →
            session ≠ EmptyString →
            DownloadSection.sessionId props = JStr session)
       ∧ (fields !! "sessionId" = None →
            DownloadSection.sessionId props = JStr EmptyString)
       ∧ (validChild message = true →
            downloadSectionView (app pg') = Rendered (Some props))
       ∧ (validChild message = false → downloadSectionView (app pg') = Crash))
  ∧ DownloadSection.downloadUrl EmptyString file = "/api/download//" +:+ file.
Proof.
  intros Hpg Hup Hcan Hstatus Hdata Hfile Hne pg' message. subst pg' message.
  rewrite (step_submit_settle_success pg st) by (done || by rewrite Hdata).
  cbn [app upload]. split; [reflexivity|]. split; [|reflexivity].
  unfold downloadSectionView, downloadSection, rendersDownloadSection.
  cbn [processingResults handleProcessingComplete].
  set (results := JObj _).
  assert (own results "outputFile" = JStr file) as Hout.
  { change (own results "outputFile") with (own (data response) "outputFile").
    rewrite Hdata. simpl. by rewrite Hfile. }
  assert (own results "sessionId" = default JUndefined (fields !! "sessionId")) as Hsid.
  { change (own results "sessionId") with (own (data response) "sessionId").
    by rewrite Hdata. }
  assert (own results "message" = default JUndefined (fields !! "message")) as Hmsg.
  { change (own results "message") with (own (data response) "message").
    by rewrite Hdata. }
  assert (truthy (opt_member results "success") = true) as -> by reflexivity.
  rewrite Hout, Hsid, Hmsg.
  assert (truthy (JStr file) = true) as ->
    by (simpl; by rewrite bool_decide_eq_false_2).
  cbn [andb]. eexists. split; [reflexivity|].
  cbn [DownloadSection.filename DownloadSection.sessionId DownloadSection.message].
  split_and!; [reflexivity | reflexivity | | | |].
  - intros session -> Hsession. unfold js_or. simpl.
    by rewrite bool_decide_eq_false_2.
  - intros ->. reflexivity.
  - by intros ->.
  - by intros ->.
Qed.

Lemma success_with_file_shows_download_witness :
  upload successWithPending = None
  ∧ ∃ props,
      downloadSectionView
        (app (step (step readyPage Submit)
                (Settle 0 (HttpReply
                             {| status := 200;
                                data := JObj {[ "message" := JStr "Updated 3 rows";
                                                "outputFile" := JStr "out.xlsx";
                                                "sessionId" := JStr "abc123" ]} |}))))
      = Rendered (Some props)
      ∧ DownloadSection.filename props = JStr "out.xlsx"
      ∧ DownloadSection.sessionId props = JStr "abc123".
Proof.
  destruct (success_with_file_shows_download readyPage readySelection
              {| status := 200;
                 data := JObj {[ "message" := JStr "Updated 3 rows";
                                 "outputFile" := JStr "out.xlsx";
                                 "sessionId" := JStr "abc123" ]} |}
              {[ "message" := JStr "Updated 3 rows";
                 "outputFile" := JStr "out.xlsx";
                 "sessionId" := JStr "abc123" ]}
              "out.xlsx")
    as (_ & (props & _ & Hname & _ & Hsession & _ & Hview & _) & _).
  - apply reachable_consistent.
    by exists [DropPdf [sheetPdf; notesTxt; secondPdf]; DropExcel [inventoryXlsx]].
  - reflexivity.
  - reflexivity.
  - simpl. lia.
  - reflexivity.
  - reflexivity.
  - discriminate.
  - split; [reflexivity|]. exists props. split_and!; [| exact Hname |].
    + apply Hview. reflexivity.
    + apply (Hsession "abc123"); [reflexivity | discriminate].
Defined.



(** ** Where requests come from *)

Lemma inflight_step_settle (pg : Page) (k : nat) (reply : server_reply) :
  inflight (step pg (Settle k reply)) `sublist_of` inflight pg.
Proof.
  destruct (inflight pg !! k) as [t|] eqn:Hk.
  - destruct (step_settle_at pg k t reply Hk) as (results & _ & ->).
    rewrite inflight_render. simpl. rewrite inflight_onInstance. simpl.
    apply sublist_delete.
  - simpl. by rewrite Hk.
Qed.

(** X13. Only a click on submit posts a request.  Over any sequence of
    events without such a click the requests in flight can only leave, in
    their order; and when the sequence has no settling request either, so
    only offers and removals of files and progress events, the requests in
    flight and the state of [App] are exactly what they were. *)
Theorem only_submit_posts (evs : list event) (pg : Page) :
  (Forall (λ ev, ev ≠ Submit) evs →
     inflight (run pg evs) `sublist_of` inflight pg)
  ∧ (Forall (λ ev, ev ≠ Submit ∧ ∀ k reply, ev ≠ Settle k reply) evs →
       inflight (run pg evs) = inflight pg
       ∧ app (run pg evs) = app pg
       ∧ mounted (run pg evs) = mounted pg).
Proof.
  split.
  - revert pg. induction evs as [|ev evs IH]; intros pg Hevs; [done|].
    inversion_clear Hevs as [|? ? Hev Hevs'].
    rewrite run_cons. etrans; [by apply IH|].
    destruct ev as [fs | fs | index | | k progressEvent | k reply]; try done.
    + simpl. destruct (inflight pg !! k); [by rewrite inflight_onInstance | done].
    + apply inflight_step_settle.
  - revert pg. induction evs as [|ev evs IH]; intros pg Hevs; [done|].
    inversion_clear Hevs as [|? ? [Hsubmit Hsettle] Hevs'].
    rewrite run_cons. destruct (IH (step pg ev) Hevs') as (-> & -> & ->).
    destruct ev as [fs | fs | index | | k progressEvent | k reply]; try done.
    + simpl. destruct (inflight pg !! k); [|done].
      unfold onInstance. by case_bool_decide.
    + by destruct (Hsettle k reply).
Qed.

Lemma only_submit_posts_witness :
  inflight (run busyPage [RemovePdf 0; DropExcel [stockXlsx];
                          UploadProgress 0 {| loaded := 10; total := None |}])
  = inflight busyPage
  ∧ inflight (run (step busyPage Submit) [RemovePdf 0; Settle 0 NoResponse])
    `sublist_of` inflight (step busyPage Submit).
Proof.
  destruct (only_submit_posts
              [RemovePdf 0; DropExcel [stockXlsx];
               UploadProgress 0 {| loaded := 10; total := None |}] busyPage)
    as [_ Hsame].
  destruct (only_submit_posts [RemovePdf 0; Settle 0 NoResponse] (step busyPage Submit))
    as [Hsub _].
  split.
  - apply Hsame. repeat constructor; discriminate.
  - apply Hsub. repeat constructor; discriminate.
Defined.

(** ** The processing indicator *)

Lemma step_processing_inflight (pg : Page) (ev : event) :
  (isProcessing (app pg) = true → inflight pg ≠ []) →
  isProcessing (app (step pg ev)) = true → inflight (step pg ev) ≠ [].
Proof.
  intros Hpg. destruct ev as [fs | fs | index | | k progressEvent | k reply]; try done.
  - simpl. destruct (upload pg) as [st|]; [|done].
    unfold handleSubmit. destruct (submitDisabled st); simpl; [done|].
    intros _. rewrite inflight_render. simpl. by destruct (inflight pg).
  - simpl. destruct (inflight pg !! k); [|done].
    by rewrite app_onInstance, inflight_onInstance.
  - destruct (inflight pg !! k) as [t|] eqn:Hk.
    + destruct (step_settle_at pg k t reply Hk) as (results & _ & ->).
      by rewrite app_render.
    + simpl. by rewrite Hk.
Qed.

(** X14. On every page that a sequence of events leads to, [App] shows the
    processing indicator only while a request is in flight.  (The converse
    fails: a request can be in flight without the indicator, once another one
    has settled.) *)
Theorem processing_implies_inflight (pg : Page) :
  reachable pg →
  isProcessing (app pg) = true →
  inflight pg ≠ [] ∧ sessionState (app pg) = Submitting.
Proof.
  intros [evs ->] Hproc. split; [|unfold sessionState; by rewrite Hproc].
  revert Hproc. induction evs as [|ev evs IH] using rev_ind; [done|].
  rewrite run_snoc. by apply step_processing_inflight.
Qed.

Lemma processing_implies_inflight_witness :
  inflight busyPage ≠ [] ∧ sessionState (app busyPage) = Submitting.
Proof.
  apply (processing_implies_inflight busyPage).
  - by exists [DropPdf [sheetPdf; notesTxt; secondPdf]; DropExcel [inventoryXlsx]; Submit].
  - reflexivity.
Defined.

(** ** The bodies of the requests in flight *)

Lemma inflight_step_other (pg : Page) (ev : event) :
  ev ≠ Submit → inflight (step pg ev) `sublist_of` inflight pg.
Proof.
  intros Hev. destruct ev as [fs | fs | index | | k progressEvent | k reply]; try done.
  - simpl. destruct (inflight pg !! k); [by rewrite inflight_onInstance | done].
  - apply inflight_step_settle.
Qed.

Lemma inflight_step_submit (pg : Page) :
  inflight (step pg Submit) = inflight pg
  ∨ ∃ st, upload pg = Some st
          ∧ canSubmit st = true
          ∧ inflight (step pg Submit)
            = inflight pg ++ [{| owner := mounted pg; body := buildFormData st |}].
Proof.
  simpl. destruct (upload pg) as [st|] eqn:Hup; [|by left].
  unfold handleSubmit. destruct (submitDisabled st) eqn:Hdis; simpl; [by left|].
  right. exists st. split_and!; [done | unfold canSubmit; by rewrite Hdis |].
  by rewrite inflight_render.
Qed.

(** X8. The requests in flight and their bodies.  On every page that a
    sequence of events leads to, each request in flight carries a body made of
    one part or more under [pdfFiles], every one a PDF by media type, followed
    by exactly one part under [excelFile] whose name ends in [.xlsx].  No
    event rewrites a request in flight: after any event other than a click on
    submit the requests in flight are, with their bodies and in their order,
    among those in flight before; and a click on submit leaves them as they
    are or adds one at the end whose body is built from the selection on
    screen at the click. *)
Theorem reachable_inflight_valid (pg : Page) (t : Transfer) :
  (reachable pg →
   t ∈ inflight pg →
   ∃ documents spreadsheet,
     body t = ((λ file, ("pdfFiles", file)) <$> documents) ++ [("excelFile", spreadsheet)]
     ∧ documents ≠ []
     ∧ (∀ file, file ∈ documents → type file = "application/pdf")
     ∧ (∃ stem, name spreadsheet = stem +:+ ".xlsx")
     ∧ getAll "pdfFiles" (body t) = documents
     ∧ getAll "excelFile" (body t) = [spreadsheet])
  ∧ (∀ ev, ev ≠ Submit → inflight (step pg ev) `sublist_of` inflight pg)
  ∧ (inflight (step pg Submit) = inflight pg
     ∨ ∃ st, upload pg = Some st
             ∧ canSubmit st = true
             ∧ inflight (step pg Submit)
               = inflight pg ++ [{| owner := mounted pg; body := buildFormData st |}]).
Proof.
  split_and!.
  - intros Hreach Ht.
    destruct (reachable_validPage pg Hreach) as [_ Hflight].
    rewrite list.Forall_forall in Hflight.
    destruct (Hflight t Ht) as (documents & spreadsheet & Hbody & Hne & Hpdf & Hends).
    exists documents, spreadsheet. rewrite Hbody. split_and!; try done.
    + by apply list.Forall_forall.
    + by apply endsWith_spec.
    + rewrite getAll_app, getAll_parts_same. apply app_nil_r.
    + rewrite getAll_app, getAll_parts_other by done. reflexivity.
  - apply inflight_step_other.
  - apply inflight_step_submit.
Qed.

Lemma reachable_inflight_valid_witness :
  (∃ documents spreadsheet,
     buildFormData readySelection
     = ((λ file, ("pdfFiles", file)) <$> documents) ++ [("excelFile", spreadsheet)]
     ∧ documents ≠ []
     ∧ (∀ file, file ∈ documents → type file = "application/pdf")
     ∧ (∃ stem, name spreadsheet = stem +:+ ".xlsx")
     ∧ getAll "pdfFiles" (buildFormData readySelection) = documents
     ∧ getAll "excelFile" (buildFormData readySelection) = [spreadsheet])
  ∧ inflight (step busyPage (DropExcel [stockXlsx])) `sublist_of` inflight busyPage.
Proof.
  destruct (reachable_inflight_valid
              (run initialPage
                 [DropPdf [sheetPdf; notesTxt; secondPdf]; DropExcel [inventoryXlsx];
                  Submit; RemovePdf 0; DropExcel [stockXlsx]])
              {| owner := 1; body := buildFormData readySelection |})
    as (Hvalid & _ & _).
  destruct (reachable_inflight_valid busyPage
              {| owner := 1; body := buildFormData readySelection |})
    as (_ & Hkept & _).
  split.
  - apply Hvalid; [by eexists | vm_compute; left].
  - apply Hkept. discriminate.
Defined.

(** ** A failure and the selection *)

Lemma failureOf_settled (reply : server_reply) (errorMessage : jsval) :
  failureOf reply = Some errorMessage →
  ∀ st, handleSubmit_settled (axios_post reply) st
        = (setError errorMessage st, [OnProcessingComplete (failureResults errorMessage)]).
Proof.
  unfold failureOf. intros Hfail st.
  destruct (axios_post reply) as [response | err]; simpl.
  - destruct (successResults response); [discriminate|]. by injection Hfail as <-.
  - by injection Hfail as <-.
Qed.

(** One event that keeps the form: the same instance stays on screen with
    the files it had, and an error that could be rendered before can be
    rendered after. *)
Lemma step_keepsForm (pg : Page) (st : FileUploadState) (ev : event) :
  consistent pg →
  upload pg = Some st →
  keepsForm ev = true →
  ∃ st',
    upload (step pg ev) = Some st'
    ∧ mounted (step pg ev) = mounted pg
    ∧ pdfFiles st' = pdfFiles st
    ∧ excelFile st' = excelFile st
    ∧ (validChild (error st) = true → validChild (error st') = true).
Proof.
  intros Hpg Hup Hev.
  destruct ev as [fs | fs | index | | k progressEvent | k reply]; try done.
  - destruct (canSubmit st) eqn:Hcan.
    + rewrite (step_submit_ready pg st) by done. by eexists.
    + rewrite (step_submit_not_ready pg st) by done. by eexists.
  - simpl. destruct (inflight pg !! k) as [t|]; [|by exists st].
    unfold onInstance. case_bool_decide; [|by exists st].
    rewrite Hup. by eexists.
  - simpl in Hev. destruct (failureOf reply) as [e|] eqn:Hfail; [|done].
    destruct (inflight pg !! k) as [t|] eqn:Hk; [|simpl; rewrite Hk; by exists st].
    destruct (step_settle_at pg k t reply Hk) as (results & Hresults & ->).
    specialize (Hresults st). rewrite (failureOf_settled reply e Hfail) in Hresults.
    injection Hresults as <-.
    destruct pg as [a n u ts]. simpl in Hup. subst u.
    unfold onInstance, setInflight, setUpload, setApp.
    cbn [app mounted upload inflight].
    case_bool_decide; cbn [app mounted upload inflight fmap option_fmap option_map].
    + rewrite (failureOf_settled reply e Hfail). cbn [fst].
      rewrite (render_on_screen _ (setError e st)) by reflexivity. by eexists.
    + rewrite (render_on_screen _ st) by reflexivity. by exists st.
Qed.

Lemma run_keepsForm (evs : list event) :
  ∀ (pg : Page) (st : FileUploadState),
    consistent pg →
    upload pg = Some st →
    Forall (λ ev, keepsForm ev = true) evs →
    ∃ st',
      upload (run pg evs) = Some st'
      ∧ mounted (run pg evs) = mounted pg
      ∧ pdfFiles st' = pdfFiles st
      ∧ excelFile st' = excelFile st
      ∧ (validChild (error st) = true → validChild (error st') = true).
Proof.
  induction evs as [|ev evs IH]; intros pg st Hpg Hup Hevs; [by exists st|].
  inversion_clear Hevs as [|? ? Hev Hevs'].
  destruct (step_keepsForm pg st ev Hpg Hup Hev) as (st1 & Hup1 & Hm1 & Hpdf1 & Hexcel1 & Herr1).
  destruct (IH (step pg ev) st1 (step_consistent pg ev Hpg) Hup1 Hevs')
    as (st' & Hup' & Hm' & Hpdf' & Hexcel' & Herr').
  exists st'. rewrite run_cons. split_and!; [done | congruence | congruence | congruence |].
  intros Herr. by apply Herr', Herr1.
Qed.

(** C8, against the claim.  With two requests in flight, the first succeeds
    and the second fails.  The submission that resolves last has [success]
    [false] and the session is [Failed], but the form on screen is a new
    instance: of the two documents and the spreadsheet held at the click
    nothing is left, and the selection cannot be submitted again as it is. *)
Lemma failed_submission_loses_selection_counterexample :
  let pg := step successWithPending (Settle 0 NoResponse) in
  successWithPending
  = run readyPage
      [Submit; Submit;
       Settle 0 (HttpReply {| status := 200;
                              data := JObj {[ "message" := JStr "Updated 3 rows";
                                              "outputFile" := JStr "out.xlsx";
                                              "sessionId" := JStr "abc123" ]} |})]
  ∧ pdfFiles readySelection = [sheetPdf; secondPdf]
  ∧ excelFile readySelection = Some inventoryXlsx
  ∧ own (processingResults (app pg)) "success" = JBool false
  ∧ sessionState (app pg) = Failed
  ∧ upload pg = Some initialFileUpload
  ∧ pdfFiles initialFileUpload = []
  ∧ excelFile initialFileUpload = None
  ∧ canSubmit initialFileUpload = false.
Proof. simpl. split_and!; reflexivity. Qed.

(** C8, amended.  A failure leaves the selection alone as long as the form
    stays on screen and the user does not edit it.  From a page that shows the
    form, let any sequence of events happen that consists of clicks on
    submit, progress events and failures of requests whose error can be
    rendered, so without an offer or removal of a file and without a success,
    which would take the form off the screen.  Then the same form instance is
    on screen with the documents and the spreadsheet it had, it is submittable
    if it was, and its error banner renders.  When the sequence ends with the
    failure of a request in flight, the stored result has [success] [false]
    and the session is [Failed]. *)
Theorem failed_submission_keeps_selection (pg : Page) (st : FileUploadState)
    (evs : list event) :
  consistent pg →
  upload pg = Some st →
  validChild (error st) = true →
  Forall (λ ev, keepsForm ev = true) evs →
  ∃ st',
    upload (run pg evs) = Some st'
    ∧ mounted (run pg evs) = mounted pg
    ∧ pdfFiles st' = pdfFiles st
    ∧ excelFile st' = excelFile st
    ∧ canSubmit st' = canSubmit st
    ∧ errorBanner st' ≠ Crash
    ∧ ∀ before k reply,
        evs = before ++ [Settle k reply] →
        is_Some (inflight (run pg before) !! k) →
        own (processingResults (app (run pg evs))) "success" = JBool false
        ∧ sessionState (app (run pg evs)) = Failed.
Proof.
  intros Hpg Hup Herr Hevs.
  destruct (run_keepsForm evs pg st Hpg Hup Hevs) as (st' & Hup' & Hm & Hpdf & Hexcel & Herr').
  exists st'. split_and!; try done.
  - unfold canSubmit, submitDisabled. by rewrite Hpdf, Hexcel.
  - unfold errorBanner. rewrite (Herr' Herr). by destruct (truthy (error st')).
  - intros before k reply -> [t Hk]. rewrite run_snoc.
    apply Forall_app in Hevs as [_ Hlast].
    inversion_clear Hlast as [|? ? Hkeeps _]. simpl in Hkeeps.
    destruct (failureOf reply) as [e|] eqn:Hfail; [|done].
    destruct (step_settle_at (run pg before) k t reply Hk) as (results & Hresults & ->).
    specialize (Hresults st). rewrite (failureOf_settled reply e Hfail) in Hresults.
    injection Hresults as <-. rewrite app_render. split; reflexivity.
Qed.

Lemma failed_submission_keeps_selection_witness :
  ∃ st',
    upload (run readyPage
              [Submit; UploadProgress 0 {| loaded := 4096; total := Some 108353 |};
               Submit; Settle 1 NoResponse;
               Settle 0 (HttpReply {| status := 500;
                                      data := JObj {[ "error" := JStr "Malformed PDF" ]} |})])
    = Some st'
    ∧ pdfFiles st' = [sheetPdf; secondPdf]
    ∧ excelFile st' = Some inventoryXlsx
    ∧ canSubmit st' = true.
Proof.
  destruct (failed_submission_keeps_selection readyPage readySelection
              [Submit; UploadProgress 0 {| loaded := 4096; total := Some 108353 |};
               Submit; Settle 1 NoResponse;
               Settle 0 (HttpReply {| status := 500;
                                      data := JObj {[ "error" := JStr "Malformed PDF" ]} |})])
    as (st' & Hup & _ & Hpdf & Hexcel & Hcan & _).
  - apply reachable_consistent.
    by exists [DropPdf [sheetPdf; notesTxt; secondPdf]; DropExcel [inventoryXlsx]].
  - reflexivity.
  - reflexivity.
  - repeat constructor.
  - exists st'. split_and!; [exact Hup | exact Hpdf | exact Hexcel | exact Hcan].
Defined.
